(** * SMART-on-FHIR cholesterol dashboard: a model of [script.js]

    The dashboard is sequential glue code: it resolves a session, asks the
    server for a patient and for the patient's total-cholesterol
    observations, and writes the answers into four regions of the page.
    The development follows the script function by function, in the
    version that keeps [DEV_SERVER_URL] and [DEV_PATIENT_ID] and hands the
    patient identifier to both loaders; the handler of the observation
    query and the small helpers read the same in the earlier copies.

    JSON data is kept dynamically typed, as the script meets it; a thrown
    [TypeError] is an explicit outcome; the page, the pending requests and
    a trace of calls are threaded through as a state. *)

From Stdlib Require Import QArith DecimalString.
From stdpp Require Import gmap strings list.

#[local] Set Warnings "-register-all".

(** ** Strings

    A JavaScript string is held as a Rocq [string] in UTF-8.  Every string
    the script slices or measures is ASCII on FHIR data (timestamps,
    identifiers), where a byte is a UTF-16 code unit. *)

Module JsString.

Definition bytes (l : list nat) : string :=
  String.string_of_list_ascii (Ascii.ascii_of_nat <$> l).

(** The line feed of a multi-line template literal. *)
Definition LF : string := bytes [10].

(** [s.includes(t)] *)
Fixpoint includes (s t : string) : bool :=
  String.prefix t s ||
  match s with
  | EmptyString => false
  | String _ s' => includes s' t
  end.

(** [s.substring(start, end)]: both indices are clamped to the length and
    swapped when out of order. *)
Definition substring (s : string) (start end_ : nat) : string :=
  let len := String.length s in
  let a := Nat.min start len in
  let b := Nat.min end_ len in
  String.substring (Nat.min a b) (Nat.max a b - Nat.min a b) s.

(** [l.join(sep)] on strings. *)
Definition join (l : list string) (sep : string) : string :=
  String.concat sep l.

Fixpoint drop (n : nat) (s : string) : string :=
  match n, s with
  | S n', String _ s' => drop n' s'
  | _, _ => s
  end.

(** WhiteSpace and LineTerminator of ECMAScript, in UTF-8: TAB, LF, VT,
    FF, CR, SP, U+00A0, U+1680, U+2000..U+200A, U+2028, U+2029, U+202F,
    U+205F, U+3000, U+FEFF. *)
Definition white_space : list string :=
  (bytes <$> [[9]; [10]; [11]; [12]; [13]; [32]; [194; 160]; [225; 154; 128]])
  ++ ((λ b, bytes [226; 128; b]) <$> seq 128 11)
  ++ (bytes <$> [[226; 128; 168]; [226; 128; 169]; [226; 128; 175];
                 [226; 129; 159]; [227; 128; 128]; [239; 187; 191]]).

Fixpoint strip (spaces : list string) (fuel : nat) (s : string) : string :=
  match fuel with
  | O => s
  | S fuel' =>
      match List.find (λ ws, String.prefix ws s) spaces with
      | Some ws => strip spaces fuel' (drop (String.length ws) s)
      | None => s
      end
  end.

Definition trimStart (s : string) : string :=
  strip white_space (String.length s) s.

Definition trimEnd (s : string) : string :=
  String.rev (strip (String.rev <$> white_space) (String.length s) (String.rev s)).

(** [s.trim()] *)
Definition trim (s : string) : string := trimEnd (trimStart s).

Definition hex_digit (n : nat) : Ascii.ascii :=
  Ascii.ascii_of_nat (if n <? 10 then 48 + n else 55 + n).

(** Characters [encodeURIComponent] leaves alone:
    [A-Z a-z 0-9 - _ . ! ~ * ' ( )]. *)
Definition unreserved (c : Ascii.ascii) : bool :=
  let n := Ascii.nat_of_ascii c in
  ((65 <=? n) && (n <=? 90)) || ((97 <=? n) && (n <=? 122))
  || ((48 <=? n) && (n <=? 57))
  || bool_decide (n ∈ [45; 95; 46; 33; 126; 42; 39; 40; 41]).

(** [encodeURIComponent(s)]: every other byte of the UTF-8 form becomes
    [%XX]. *)
Fixpoint encodeURIComponent (s : string) : string :=
  match s with
  | EmptyString => EmptyString
  | String c s' =>
      if unreserved c then String c (encodeURIComponent s')
      else
        let n := Ascii.nat_of_ascii c in
        String (Ascii.ascii_of_nat 37) (String (hex_digit (n / 16)) (String (hex_digit (n mod 16))
          (encodeURIComponent s')))
  end.

(** [c.toUpperCase()] on the letters a-z; other bytes are kept. *)
Definition toUpperCase_ascii (c : Ascii.ascii) : Ascii.ascii :=
  let n := Ascii.nat_of_ascii c in
  if (97 <=? n) && (n <=? 122) then Ascii.ascii_of_nat (n - 32) else c.

End JsString.

(** ** Values, failures and outcomes *)

(** What a rejected promise or a [catch] clause hands to its handler: the
    script looks at [String(error)] and at [error.message] only. *)
Record Failure := {
  description : string;          (* String(error) *)
  message : option string;       (* error.message, when there is one *)
}.

(** The [TypeError] of the engine; its wording is the engine's. *)
Definition TypeError (msg : string) : Failure :=
  {| description := "TypeError: " +:+ msg; message := Some msg |}.

(** A computation either returns or throws. *)
Inductive outcome (A : Type) : Type :=
  | Ok (a : A)
  | Throw (e : Failure).
Arguments Ok {A} a.
Arguments Throw {A} e.

#[export] Instance outcome_ret : MRet outcome := @Ok.
#[export] Instance outcome_bind : MBind outcome := λ A B f m,
  match m with
  | Ok a => f a
  | Throw e => Throw e
  end.

Module Js.

(** A value as [JSON.parse] builds it.  A number is the rational its
    literal denotes. *)
Inductive JsVal : Type :=
  | JUndefined
  | JNull
  | JBool (b : bool)
  | JNum (q : Q)
  | JStr (s : string)
  | JArr (l : list JsVal)
  | JObj (m : gmap string JsVal).

(** ToBoolean: what [if (v)], [!v], [v || w] and [v && w] test. *)
Definition truthy (v : JsVal) : bool :=
  match v with
  | JUndefined | JNull => false
  | JBool b => b
  | JNum q => negb (Qeq_bool q 0)
  | JStr s => negb (String.eqb s "")
  | JArr _ | JObj _ => true
  end.

(** [v || w] *)
Definition or (v w : JsVal) : JsVal := if truthy v then v else w.

(** [typeof v] *)
Definition typeof (v : JsVal) : string :=
  match v with
  | JUndefined => "undefined"
  | JBool _ => "boolean"
  | JNum _ => "number"
  | JStr _ => "string"
  | JNull | JArr _ | JObj _ => "object"
  end.

(** [v != null] *)
Definition not_nullish (v : JsVal) : bool :=
  match v with
  | JUndefined | JNull => false
  | _ => true
  end.

(** [v === q] for a number literal [q]. *)
Definition strict_equals_number (v : JsVal) (q : Q) : bool :=
  match v with
  | JNum p => Qeq_bool p q
  | _ => false
  end.

Definition number_of_nat (n : nat) : Q := inject_Z (Z.of_nat n).

Definition cannot_read {A} (base : string) (k : string) : outcome A :=
  Throw (TypeError ("Cannot read properties of " +:+ base +:+ " (reading '" +:+ k +:+ "')")).

(** [v.k], for the property names the script reads; of the inherited
    properties only [length] is among them. *)
Definition get (v : JsVal) (k : string) : outcome JsVal :=
  match v with
  | JUndefined => cannot_read "undefined" k
  | JNull => cannot_read "null" k
  | JObj m => Ok (default JUndefined (m !! k))
  | JArr l =>
      Ok (if String.eqb k "length" then JNum (number_of_nat (length l)) else JUndefined)
  | JStr s =>
      Ok (if String.eqb k "length" then JNum (number_of_nat (String.length s)) else JUndefined)
  | JBool _ | JNum _ => Ok JUndefined
  end.

(** Decimal form of an index, as a property name. *)
Definition index_name (i : nat) : string :=
  DecimalString.NilZero.string_of_uint (Nat.to_uint i).

(** [v[i]] *)
Definition get_index (v : JsVal) (i : nat) : outcome JsVal :=
  match v with
  | JUndefined => cannot_read "undefined" (index_name i)
  | JNull => cannot_read "null" (index_name i)
  | JObj m => Ok (default JUndefined (m !! index_name i))
  | JArr l => Ok (default JUndefined (l !! i))
  | JStr s => Ok (if i <? String.length s then JStr (JsString.substring s i (S i)) else JUndefined)
  | JBool _ | JNum _ => Ok JUndefined
  end.

Definition not_a_function {A} (name : string) : outcome A :=
  Throw (TypeError (name +:+ " is not a function")).

(** [v.substring(a, b)]: only a string has the method. *)
Definition call_substring (v : JsVal) (a b : nat) : outcome string :=
  match v with
  | JStr s => Ok (JsString.substring s a b)
  | JUndefined => cannot_read "undefined" "substring"
  | JNull => cannot_read "null" "substring"
  | _ => not_a_function "substring"
  end.

Section Conversion.

(** [Number::toString], the engine's shortest decimal form of a
    number. *)
Variable NumberToString : Q → string.

(** ToString, as a template literal and [+] on a string apply it.  An
    object prints as [[object Object]] unless the data gave it a
    [toString] property of its own, which is then no function; an
    array joins its elements with commas, holes for [null] and
    [undefined]. *)
Fixpoint toString (v : JsVal) : outcome string :=
  match v with
  | JUndefined => Ok "undefined"
  | JNull => Ok "null"
  | JBool b => Ok (if b then "true" else "false")
  | JNum q => Ok (NumberToString q)
  | JStr s => Ok s
  | JObj m =>
      match m !! "toString" with
      | Some _ => Throw (TypeError "Cannot convert object to primitive value")
      | None => Ok "[object Object]"
      end
  | JArr l =>
      parts ← (fix elements (l : list JsVal) : outcome (list string) :=
                 match l with
                 | [] => Ok []
                 | x :: l' =>
                     s ← match x with
                         | JUndefined | JNull => Ok ""
                         | _ => toString x
                         end;
                     r ← elements l';
                     Ok (s :: r)
                 end) l;
      Ok (JsString.join parts ",")
  end.

(** The string an element contributes to [join]. *)
Definition element_string (x : JsVal) : outcome string :=
  match x with
  | JUndefined | JNull => Ok ""
  | _ => toString x
  end.

(** [v.join(sep)]: only an array has the method. *)
Definition call_join (v : JsVal) (sep : string) : outcome string :=
  match v with
  | JArr l => parts ← mapM element_string l; Ok (JsString.join parts sep)
  | JUndefined => cannot_read "undefined" "join"
  | JNull => cannot_read "null" "join"
  | _ => not_a_function "join"
  end.

End Conversion.

End Js.
Import Js.

(** ** The page, the clients and the requests in flight *)

(** An element made by [document.createElement]. *)
Record Element := {
  tagName : string;
  innerHTML : string;
}.

(** The content of [#lab-table-body]: the markup last assigned to its
    [innerHTML], and the elements appended since. *)
Record TableBody := {
  markup : string;
  appended : list Element;
}.

Record Series := {
  series_name : string;
  data : list JsVal;
}.

(** The options object handed to [Highcharts.chart]. *)
Record ChartOptions := {
  chart_type : option string;
  title_text : string;
  xAxis_categories : list string;
  xAxis_title : option string;
  yAxis_title : option string;
  tooltip : option (bool * nat);      (* shared, valueDecimals *)
  series : list Series;
  credits_enabled : bool;
}.

(** [client.patient]: the identifier in context ([null] is [None]) and
    whether [read] is a function. *)
Record PatientContext := {
  patient_id : option string;
  patient_read : bool;
}.

Record Client := {
  state_serverUrl : string;           (* client.state.serverUrl *)
  patient : option PatientContext;    (* client.patient *)
}.

Record RequestOptions := {
  pageLimit : nat;
  flat : bool;
}.

Inductive Fetch :=
  | ClientRequest (url : string) (options : option RequestOptions)
  | PatientRead.

(** The [then]/[catch] pair attached to a promise. *)
Inductive Handlers := PatientHandlers | LabHandlers.

Record Pending := {
  on_client : Client;
  fetch : Fetch;
  handlers : Handlers;
}.

(** Calls the trace keeps: the two loaders and the chart renderer, with
    their arguments. *)
Inductive Call :=
  | LoadPatient (client : Client) (patientId : option string)
  | LoadCholesterolLabs (client : Client) (patientId : option string)
  | RenderChart (dates : list string) (values : list JsVal).

Record World := {
  status : string;                    (* $("status").textContent *)
  patient_info : string;              (* $("patient-info").innerHTML *)
  lab_table_body : TableBody;         (* $("lab-table-body") *)
  lab_chart : option ChartOptions;    (* the chart drawn in "lab-chart" *)
  console : list (string * Failure);  (* console.error *)
  requests : list Pending;            (* promises awaiting the server *)
  trace : list Call;
}.

(** A statement of the script: it changes the world and returns or
    throws; what it did before throwing stays done. *)
Definition M (A : Type) : Type := World → outcome A * World.

#[export] Instance M_ret : MRet M := λ A a w, (Ok a, w).
#[export] Instance M_bind : MBind M := λ A B f m w,
  match m w with
  | (Ok a, w') => f a w'
  | (Throw e, w') => (Throw e, w')
  end.

Definition lift {A} (o : outcome A) : M A := λ w, (o, w).

Definition modify (f : World → World) : M unit := λ w, (Ok tt, f w).

Definition set_status (s : string) (w : World) : World :=
  {| status := s; patient_info := patient_info w;
     lab_table_body := lab_table_body w; lab_chart := lab_chart w;
     console := console w; requests := requests w; trace := trace w |}.

Definition set_patient_info (s : string) (w : World) : World :=
  {| status := status w; patient_info := s;
     lab_table_body := lab_table_body w; lab_chart := lab_chart w;
     console := console w; requests := requests w; trace := trace w |}.

Definition set_lab_table_body (t : TableBody) (w : World) : World :=
  {| status := status w; patient_info := patient_info w;
     lab_table_body := t; lab_chart := lab_chart w;
     console := console w; requests := requests w; trace := trace w |}.

Definition set_lab_chart (c : ChartOptions) (w : World) : World :=
  {| status := status w; patient_info := patient_info w;
     lab_table_body := lab_table_body w; lab_chart := Some c;
     console := console w; requests := requests w; trace := trace w |}.

Definition log_error (label : string) (e : Failure) (w : World) : World :=
  {| status := status w; patient_info := patient_info w;
     lab_table_body := lab_table_body w; lab_chart := lab_chart w;
     console := console w ++ [(label, e)]; requests := requests w;
     trace := trace w |}.

Definition add_request (p : Pending) (w : World) : World :=
  {| status := status w; patient_info := patient_info w;
     lab_table_body := lab_table_body w; lab_chart := lab_chart w;
     console := console w; requests := requests w ++ [p];
     trace := trace w |}.

Definition add_call (c : Call) (w : World) : World :=
  {| status := status w; patient_info := patient_info w;
     lab_table_body := lab_table_body w; lab_chart := lab_chart w;
     console := console w; requests := requests w;
     trace := trace w ++ [c] |}.

(** [console.error(label, e)] *)
Definition console_error (label : string) (e : Failure) : M unit :=
  modify (log_error label e).

(** A request leaves for the server; its promise waits. *)
Definition issue (p : Pending) : M unit := modify (add_request p).

(** Entry into one of the traced functions. *)
Definition called (c : Call) : M unit := modify (add_call c).

(** [tbody.innerHTML = s] replaces the content. *)
Definition set_innerHTML (s : string) : M unit :=
  modify (set_lab_table_body {| markup := s; appended := [] |}).

(** [tbody.appendChild(row)] *)
Definition appendChild (row : Element) : M unit :=
  modify (λ w,
    set_lab_table_body
      {| markup := markup (lab_table_body w);
         appended := appended (lab_table_body w) ++ [row] |} w).

(** What the server, or the launch library, answers. *)
Inductive Settled (A : Type) :=
  | Resolved (a : A)
  | Rejected (e : Failure).
Arguments Resolved {A} a.
Arguments Rejected {A} e.

(** [promise.then(f).catch(g)]: [g] also catches what [f] throws. *)
Definition then_catch {A} (f : A → M unit) (g : Failure → M unit)
    (r : Settled A) : M unit := λ w,
  match r with
  | Resolved a =>
      match f a w with
      | (Ok u, w') => (Ok u, w')
      | (Throw e, w') => g e w'
      end
  | Rejected e => g e w
  end.

(** ToBoolean of a text that may be missing: [null], [undefined] and the
    empty string are falsy. *)
Definition truthy_text (p : option string) : bool :=
  match p with
  | Some s => negb (String.eqb s "")
  | None => false
  end.

(** ** The script *)

(** [FHIR.client(serverUrl)] of the launch library: a client for that
    server, with no patient in context. *)
Definition FHIR_client (serverUrl : string) : Client :=
  {| state_serverUrl := serverUrl;
     patient := Some {| patient_id := None; patient_read := true |} |}.

Definition DEV_SERVER_URL : string := "https://r3.smarthealthit.org".
Definition DEV_PATIENT_ID : string := "smart-1288992".

(** [client.patient && client.patient.id ? client.patient.id : null] *)
Definition context_patient_id (client : Client) : option string :=
  match patient client with
  | Some ctx => if truthy_text (patient_id ctx) then patient_id ctx else None
  | None => None
  end.

(** [renderChart]'s two option objects. *)
Definition no_data_chart : ChartOptions :=
  {| chart_type := None;
     title_text := "No data to display";
     xAxis_categories := [];
     xAxis_title := None;
     yAxis_title := None;
     tooltip := None;
     series := [];
     credits_enabled := false |}.

Definition line_chart (dates : list string) (values : list JsVal) : ChartOptions :=
  {| chart_type := Some "line";
     title_text := "Total Cholesterol Over Time";
     xAxis_categories := dates;
     xAxis_title := Some "Date";
     yAxis_title := Some "Cholesterol (e.g., mg/dL)";
     tooltip := Some (true, 2);
     series := [ {| series_name := "Total Cholesterol"; data := values |} ];
     credits_enabled := false |}.

Definition renderChart (dates : list string) (values : list JsVal) : M unit :=
  called (RenderChart dates values);;
  if bool_decide (length dates = 0) || bool_decide (length values = 0)
  then modify (set_lab_chart no_data_chart)
  else modify (set_lab_chart (line_chart dates values)).

(** The four cells of a result row, as the template literal lays them
    out. *)
Definition row_template (date value unit_ status : string) : string :=
  JsString.LF +:+ "          <td>" +:+ date +:+ "</td>" +:+
  JsString.LF +:+ "          <td>" +:+ value +:+ "</td>" +:+
  JsString.LF +:+ "          <td>" +:+ unit_ +:+ "</td>" +:+
  JsString.LF +:+ "          <td>" +:+ status +:+ "</td>" +:+
  JsString.LF +:+ "        ".

Definition DQ : string := JsString.bytes [34].

Definition patient_template (name gender dob id : string) : string :=
  JsString.LF +:+ "        <dl class=" +:+ DQ +:+ "patient-grid" +:+ DQ +:+ ">" +:+
  JsString.LF +:+ "          <div>" +:+
  JsString.LF +:+ "            <dt>Name</dt><dd>" +:+ name +:+ "</dd>" +:+
  JsString.LF +:+ "          </div>" +:+
  JsString.LF +:+ "          <div>" +:+
  JsString.LF +:+ "            <dt>Gender</dt><dd>" +:+ gender +:+ "</dd>" +:+
  JsString.LF +:+ "          </div>" +:+
  JsString.LF +:+ "          <div>" +:+
  JsString.LF +:+ "            <dt>Date of Birth</dt><dd>" +:+ dob +:+ "</dd>" +:+
  JsString.LF +:+ "          </div>" +:+
  JsString.LF +:+ "          <div>" +:+
  JsString.LF +:+ "            <dt>Patient ID</dt><dd>" +:+ id +:+ "</dd>" +:+
  JsString.LF +:+ "          </div>" +:+
  JsString.LF +:+ "        </dl>" +:+
  JsString.LF +:+ "      ".

Section Script.

Variable NumberToString : Q → string.

Abbreviation toString := (Js.toString NumberToString).
Abbreviation call_join := (Js.call_join NumberToString).

(** *** Small helpers *)

Definition formatHumanName (name : JsVal) : outcome string :=
  if negb (truthy name) then Ok "(no name)"
  else
    g ← get name "given";
    given ← call_join (Js.or g (JArr [])) " ";
    f ← get name "family";
    let family := Js.or f (JStr "") in
    family_string ← toString family;
    let full := JsString.trim (given +:+ " " +:+ family_string) in
    Ok (if String.eqb full "" then "(no name)" else full).

(** [s.charAt(0).toUpperCase() + s.slice(1)] is taken on the ASCII
    letters. *)
Definition capitalize (s : JsVal) : outcome string :=
  if negb (truthy s) then Ok ""
  else
    match s with
    | JStr (String c rest) => Ok (String (JsString.toUpperCase_ascii c) rest)
    | _ => not_a_function "s.charAt"
    end.

Definition getObservationDate (obs : JsVal) : outcome string :=
  effectiveDateTime ← get obs "effectiveDateTime";
  if truthy effectiveDateTime then call_substring effectiveDateTime 0 10
  else
    issued ← get obs "issued";
    if truthy issued then call_substring issued 0 10
    else Ok "".

(** *** Patient Loader *)

(** [client.patient && typeof client.patient.read === "function"] *)
Definition can_read_patient (client : Client) : bool :=
  match patient client with
  | Some ctx => patient_read ctx
  | None => false
  end.

Definition loadPatient (client : Client) (patientId : option string) : M unit :=
  called (LoadPatient client patientId);;
  if truthy_text patientId then
    issue {| on_client := client;
             fetch := ClientRequest
                        ("Patient/" +:+ JsString.encodeURIComponent (default "" patientId))
                        None;
             handlers := PatientHandlers |}
  else if can_read_patient client then
    issue {| on_client := client; fetch := PatientRead; handlers := PatientHandlers |}
  else
    modify (set_patient_info "<p class='error'>No patient context available.</p>").

(** [formatHumanName(patient.name && patient.name[0])] *)
Definition patient_name (patient : JsVal) : outcome string :=
  names ← get patient "name";
  first ← (if truthy names then get_index names 0 else Ok names);
  formatHumanName first.

(** The [then] handler of the patient promise. *)
Definition patient_then (patient : JsVal) : M unit :=
  name ← lift (patient_name patient);
  g ← lift (get patient "gender");
  let gender := Js.or g (JStr "unknown") in
  b ← lift (get patient "birthDate");
  let dob := Js.or b (JStr "unknown") in
  i ← lift (get patient "id");
  let id := Js.or i (JStr "(no id)") in
  gender_cell ← lift (capitalize gender);
  dob_cell ← lift (toString dob);
  id_cell ← lift (toString id);
  modify (set_patient_info (patient_template name gender_cell dob_cell id_cell)).

Definition patient_catch (err : Failure) : M unit :=
  console_error "Error loading patient:" err;;
  modify (set_patient_info "<p class='error'>Could not load patient details.</p>").

(** *** Lab Series Loader *)

(** [err.message || err], as [+] appends it to a string. *)
Definition message_or_description (err : Failure) : string :=
  if truthy_text (message err) then default "" (message err) else description err.

Definition append_status (s : string) : M unit :=
  modify (λ w, set_status (status w +:+ s) w).

(** One turn of the [forEach] callback; [dates] and [values] are the two
    arrays of the enclosing handler. *)
Definition forEach_callback (obs : JsVal) (arrays : list string * list JsVal)
    : M (list string * list JsVal) :=
  let '(dates, values) := arrays in
  date ← lift (getObservationDate obs);
  vq ← lift (get obs "valueQuantity");
  let valueQuantity := Js.or vq (JObj ∅) in
  value ← lift (get valueQuantity "value");
  u ← lift (get valueQuantity "unit");
  unit_ ← lift (if truthy u then Ok u
                else c ← get valueQuantity "code"; Ok (Js.or c (JStr "")));
  s ← lift (get obs "status");
  let status := Js.or s (JStr "") in
  let arrays' :=
    if negb (String.eqb date "") && String.eqb (typeof value) "number"
    then (dates ++ [date], values ++ [value])
    else (dates, values) in
  let date_cell := if negb (String.eqb date "") then date else "" in
  value_cell ← lift (if not_nullish value then toString value else Ok "");
  unit_cell ← lift (toString unit_);
  status_cell ← lift (toString status);
  let row := {| tagName := "tr";
                innerHTML := row_template date_cell value_cell unit_cell status_cell |} in
  appendChild row;;
  mret arrays'.

Fixpoint forEach_elements (l : list JsVal) (arrays : list string * list JsVal)
    : M (list string * list JsVal) :=
  match l with
  | [] => mret arrays
  | obs :: l' => arrays' ← forEach_callback obs arrays; forEach_elements l' arrays'
  end.

(** [observations.forEach(...)]: only an array has the method. *)
Definition forEach (observations : JsVal) (arrays : list string * list JsVal)
    : M (list string * list JsVal) :=
  match observations with
  | JArr l => forEach_elements l arrays
  | _ => lift (not_a_function "observations.forEach")
  end.

Definition no_results : M unit :=
  append_status " • No cholesterol results found for this patient.";;
  set_innerHTML "<tr><td colspan='4'>No cholesterol results.</td></tr>";;
  renderChart [] [].

(** The [then] handler of the observation query. *)
Definition labs_then (observations : JsVal) : M unit :=
  if negb (truthy observations) then no_results
  else
    len ← lift (get observations "length");
    if strict_equals_number len 0 then no_results
    else
      set_innerHTML "";;
      '(dates, values) ← forEach observations ([], []);
      renderChart dates values.

Definition labs_catch (err : Failure) : M unit :=
  console_error "Error loading cholesterol labs:" err;;
  append_status (" • Error loading cholesterol labs: " +:+ message_or_description err);;
  set_innerHTML "<tr><td colspan='4'>Error loading labs.</td></tr>";;
  renderChart [] [].

Definition loadCholesterolLabs (client : Client) (patientId : option string) : M unit :=
  called (LoadCholesterolLabs client patientId);;
  let pid := if truthy_text patientId then patientId else context_patient_id client in
  if negb (truthy_text pid) then
    append_status " • No patient ID available for cholesterol query.";;
    set_innerHTML "<tr><td colspan='4'>No patient ID available.</td></tr>";;
    renderChart [] []
  else
    let code := "http://loinc.org|2093-3" in
    issue {| on_client := client;
             fetch := ClientRequest
                        ("Observation?patient=" +:+
                         JsString.encodeURIComponent (default "" pid) +:+
                         "&code=" +:+
                         JsString.encodeURIComponent code +:+
                         "&_sort=date")
                        (Some {| pageLimit := 3; flat := true |});
             handlers := LabHandlers |}.

(** *** Entry point: [FHIR.oauth2.ready().then(...).catch(...)] *)

Definition ready_then (client : Client) : M unit :=
  modify (set_status ("Connected to FHIR server (SMART): " +:+ state_serverUrl client));;
  let patientId := context_patient_id client in
  loadPatient client patientId;;
  loadCholesterolLabs client patientId.

Definition ready_catch (error : Failure) : M unit :=
  console_error "SMART launch error:" error;;
  if JsString.includes (description error) "No 'state' parameter" then
    modify (set_status
      "No SMART launch detected – using sandbox dev mode with a test patient.");;
    let client := FHIR_client DEV_SERVER_URL in
    let patientId := Some DEV_PATIENT_ID in
    loadPatient client patientId;;
    loadCholesterolLabs client patientId
  else
    modify (set_status ("Launch error: " +:+ message_or_description error)).

Definition entry_point (launch : Settled Client) : M unit :=
  then_catch ready_then ready_catch launch.

(** The handlers run when the server answers a pending request. *)
Definition settle (h : Handlers) (answer : Settled JsVal) : M unit :=
  match h with
  | PatientHandlers => then_catch patient_then patient_catch answer
  | LabHandlers => then_catch labs_then labs_catch answer
  end.

End Script.

(** ** The earlier script

    The first copy of the script takes the patient from the client alone:
    [loadPatient(client)] and [loadCholesterolLabs(client)].  Its handlers
    are those above, but that [console.error] gets the error only, kept
    here under the empty label. *)

Module Earlier.

(** [client.patient = { id: patientId }]: the assigned object has an [id]
    and nothing else. *)
Definition assign_patient (client : Client) (patientId : string) : Client :=
  {| state_serverUrl := state_serverUrl client;
     patient := Some {| patient_id := Some patientId; patient_read := false |} |}.

(** [client.patient.read().then(...).catch(...)] *)
Definition loadPatient (client : Client) : M unit :=
  match patient client with
  | None => lift (cannot_read "undefined" "read")
  | Some ctx =>
      if patient_read ctx
      then issue {| on_client := client; fetch := PatientRead; handlers := PatientHandlers |}
      else lift (not_a_function "client.patient.read")
  end.

(** [encodeURIComponent(client.patient.id)], [null] printing as it
    does. *)
Definition loadCholesterolLabs (client : Client) : M unit :=
  let code := "http://loinc.org|2093-3" in
  match patient client with
  | None => lift (cannot_read "undefined" "id")
  | Some ctx =>
      issue {| on_client := client;
               fetch := ClientRequest
                          ("Observation?patient=" +:+
                           JsString.encodeURIComponent (default "null" (patient_id ctx)) +:+
                           "&code=" +:+
                           JsString.encodeURIComponent code +:+
                           "&_sort=date")
                          (Some {| pageLimit := 3; flat := true |});
               handlers := LabHandlers |}
  end.

Definition ready_then (client : Client) : M unit :=
  modify (set_status ("Connected to FHIR server (SMART): " +:+ state_serverUrl client));;
  loadPatient client;;
  loadCholesterolLabs client.

Definition ready_catch (error : Failure) : M unit :=
  console_error "" error;;
  if JsString.includes (description error) "No 'state' parameter" then
    modify (set_status
      "No SMART launch detected – using sandbox dev mode with a test patient.");;
    let serverUrl := "https://r3.smarthealthit.org" in
    let patientId := "smart-1288992" in
    let client := assign_patient (FHIR_client serverUrl) patientId in
    loadPatient client;;
    loadCholesterolLabs client
  else
    modify (set_status ("Launch error: " +:+ message_or_description error)).

Definition entry_point (launch : Settled Client) : M unit :=
  then_catch ready_then ready_catch launch.

End Earlier.

(** ** Reading the resources

    The statements below speak of FHIR resources: how a timestamp, a name or
    a quantity is found in the JSON object that carries it. *)

(** The first [n] characters of [s], all of [s] when it is shorter. *)
Fixpoint first_chars (n : nat) (s : string) : string :=
  match n, s with
  | S n', String c s' => String c (first_chars n' s')
  | _, _ => ""
  end.

(** The date portion [YYYY-MM-DD] of a timestamp. *)
Definition date_portion (s : string) : string := first_chars 10 s.

(** A property that is absent, [null] or a string. *)
Definition optional_string (v : option JsVal) : bool :=
  match v with
  | None | Some JNull | Some (JStr _) => true
  | Some _ => false
  end.

(** The timestamp a property carries: a non-empty string. *)
Definition timestamp (v : option JsVal) : option string :=
  match v with
  | Some (JStr (String c s)) => Some (String c s)
  | _ => None
  end.

(** The date of an observation in the spec's words: the effective
    timestamp's date portion, else the issued timestamp's, else empty. *)
Definition extracted_date (effective issued : option string) : string :=
  match effective, issued with
  | Some s, _ => date_portion s
  | None, Some s => date_portion s
  | None, None => ""
  end.

(** The timestamp [getObservationDate] settles on. *)
Definition chosen_timestamp (m : gmap string JsVal) : option string :=
  match timestamp (m !! "effectiveDateTime") with
  | Some s => Some s
  | None => timestamp (m !! "issued")
  end.

(** A property holding the string [s], an absent one standing for the
    empty string. *)
Definition string_field (m : gmap string JsVal) (k : string) (s : string) : Prop :=
  m !! k = Some (JStr s) ∨ (m !! k = None ∧ s = "").

(** A property holding the strings [l], an absent one standing for no
    string at all. *)
Definition strings_field (m : gmap string JsVal) (k : string) (l : list string) : Prop :=
  m !! k = Some (JArr (JStr <$> l)) ∨ (m !! k = None ∧ l = []).

(** The first listed name of a patient record, as its given parts and its
    family name; [None] when the record lists no name. *)
Inductive first_name (patient : gmap string JsVal) : option (list string * string) → Prop :=
  | no_name_property :
      patient !! "name" = None → first_name patient None
  | no_name_listed :
      patient !! "name" = Some (JArr []) → first_name patient None
  | name_listed (nm : gmap string JsVal) (others : list JsVal) given family :
      patient !! "name" = Some (JArr (JObj nm :: others)) →
      strings_field nm "given" given →
      string_field nm "family" family →
      first_name patient (Some (given, family)).

(** The name in the spec's words: the given parts joined by single
    spaces, the family name after them, trimmed; the marker when nothing
    is left. *)
Definition display_name (name : option (list string * string)) : string :=
  match name with
  | None => "(no name)"
  | Some (given, family) =>
      let full := JsString.trim (JsString.join given " " +:+ " " +:+ family) in
      if String.eqb full "" then "(no name)" else full
  end.

(** The value an observation carries: [valueQuantity.value]. *)
Definition quantity_value (obs : JsVal) : JsVal :=
  match obs with
  | JObj m =>
      match m !! "valueQuantity" with
      | Some (JObj q) => default JUndefined (q !! "value")
      | _ => JUndefined
      end
  | _ => JUndefined
  end.

(** The date of an observation, by the spec's rule. *)
Definition observation_date (obs : JsVal) : string :=
  match obs with
  | JObj m =>
      extracted_date (timestamp (m !! "effectiveDateTime")) (timestamp (m !! "issued"))
  | _ => ""
  end.

(** The observation has a resolvable date. *)
Definition has_date (obs : JsVal) : bool :=
  match obs with
  | JObj m => bool_decide (is_Some (chosen_timestamp m))
  | _ => false
  end.

(** The observation's value is of number type. *)
Definition numeric_value (obs : JsVal) : bool :=
  match quantity_value obs with
  | JNum _ => true
  | _ => false
  end.

(** The observation goes into the chart series. *)
Definition charted (obs : JsVal) : bool := has_date obs && numeric_value obs.

(** How many of a sequence of observations have both a date and a numeric
    value. *)
Definition charted_count (l : list JsVal) : nat := length (List.filter charted l).

Section Shapes.

Variable NumberToString : Q → string.

(** A value the page can print. *)
Definition printable (v : JsVal) : bool :=
  match Js.toString NumberToString v with
  | Ok _ => true
  | Throw _ => false
  end.

(** A Quantity: a value of any printable kind, unit and code strings. *)
Definition is_Quantity (v : JsVal) : bool :=
  match v with
  | JObj q =>
      printable (default JUndefined (q !! "value"))
      && optional_string (q !! "unit")
      && optional_string (q !! "code")
  | _ => false
  end.

(** An Observation resource, as far as the loader reads it: timestamps and
    status are strings where present, the value a Quantity. *)
Definition is_Observation (obs : JsVal) : bool :=
  match obs with
  | JObj m =>
      optional_string (m !! "effectiveDateTime")
      && optional_string (m !! "issued")
      && optional_string (m !! "status")
      && match m !! "valueQuantity" with
         | None | Some JNull => true
         | Some q => is_Quantity q
         end
  | _ => false
  end.

Definition observation_resource (obs : JsVal) : Prop := is_Observation obs = true.

End Shapes.

(** A table row element. *)
Definition is_tr (e : Element) : Prop := tagName e = "tr".

(** Number of times [t] occurs in [s]. *)
Fixpoint occurrences (t s : string) : nat :=
  (if String.prefix t s then 1 else 0) +
  match s with
  | EmptyString => 0
  | String _ s' => occurrences t s'
  end.

(** Rows of the results table: the [<tr>] of the markup and the [tr]
    elements appended after it. *)
Definition table_rows (w : World) : nat :=
  occurrences "<tr>" (markup (lab_table_body w))
  + length (List.filter (λ e, String.eqb (tagName e) "tr") (appended (lab_table_body w))).

(** Points of the chart: the data of all its series. *)
Definition chart_data (w : World) : list JsVal :=
  match lab_chart w with
  | Some c => concat (data <$> series c)
  | None => []
  end.

Definition chart_points (w : World) : nat := length (chart_data w).

(** Every series has one point per category of the x axis. *)
Definition aligned (c : ChartOptions) : Prop :=
  Forall (λ s, length (data s) = length (xAxis_categories c)) (series c).

(** A result row in the spec's words: one cell after the other. *)
Fixpoint cells_markup (cells : list string) : string :=
  match cells with
  | [] => "        "
  | c :: cells' => "          <td>" +:+ c +:+ "</td>" +:+ JsString.LF +:+ cells_markup cells'
  end.

Definition row_of_cells (cells : list string) : string :=
  JsString.LF +:+ cells_markup cells.

(** The columns of the results table: date, value, unit, status. *)
Definition table_columns : nat := 4.

(** A row of one cell that spans [columns] columns. *)
Definition spanning_row (columns : nat) (text : string) : string :=
  "<tr><td colspan='" +:+ index_name columns +:+ "'>" +:+ text +:+ "</td></tr>".

(** An empty result set, or none. *)
Definition empty_or_absent (observations : JsVal) : Prop :=
  observations = JArr [] ∨ observations = JUndefined ∨ observations = JNull.

(** The world after [rows] were appended to the table body. *)
Definition append_rows (rows : list Element) (w : World) : World :=
  set_lab_table_body
    {| markup := markup (lab_table_body w);
       appended := appended (lab_table_body w) ++ rows |} w.

(** ** Reading the resources, continued *)

(** The non-empty string a property holds, else [fallback]. *)
Definition text_or (v : option JsVal) (fallback : string) : string :=
  match v with
  | Some (JStr (String c s)) => String c s
  | _ => fallback
  end.

(** [s] with its first letter in upper case. *)
Definition capitalized (s : string) : string :=
  match s with
  | EmptyString => ""
  | String c rest => String (JsString.toUpperCase_ascii c) rest
  end.

(** [s] is empty or begins with an ASCII character, where
    [toUpperCase] is the map on the letters a-z. *)
Definition ascii_initial (s : string) : Prop :=
  match s with
  | EmptyString => True
  | String c _ => Ascii.nat_of_ascii c < 128
  end.

(** The calls of the two loaders among [calls]. *)
Definition loader_calls (calls : list Call) : list Call :=
  List.filter (λ c, match c with RenderChart _ _ => false | _ => true end) calls.

(** [s] begins with white space. *)
Definition starts_with_space (s : string) : Prop :=
  ∃ ws, ws ∈ JsString.white_space ∧ String.prefix ws s = true.

(** [s] ends with white space. *)
Definition ends_with_space (s : string) : Prop :=
  ∃ ws, ws ∈ JsString.white_space ∧ String.prefix (String.rev ws) (String.rev s) = true.

(** The unit an observation shows: the display unit, else the coded
    unit, else nothing. *)
Definition observation_unit (obs : JsVal) : string :=
  match obs with
  | JObj m =>
      match m !! "valueQuantity" with
      | Some (JObj q) => text_or (q !! "unit") (text_or (q !! "code") "")
      | _ => ""
      end
  | _ => ""
  end.

Definition observation_status (obs : JsVal) : string :=
  match obs with
  | JObj m => text_or (m !! "status") ""
  | _ => ""
  end.

(** The query the Lab Series Loader sends for a patient. *)
Definition observation_query (pid : string) : string :=
  "Observation?patient=" +:+ JsString.encodeURIComponent pid +:+
  "&code=" +:+ JsString.encodeURIComponent "http://loinc.org|2093-3" +:+ "&_sort=date".

Section Rows.

Variable NumberToString : Q → string.

(** What the value cell shows: nothing for [null] and [undefined], else
    the value's string form. *)
Definition value_text (v : JsVal) : string :=
  if not_nullish v then
    match Js.toString NumberToString v with
    | Ok s => s
    | Throw _ => ""
    end
  else "".

(** The row of an observation: date, value, unit, status. *)
Definition observation_row (obs : JsVal) : Element :=
  {| tagName := "tr";
     innerHTML := row_of_cells [ observation_date obs;
                                 value_text (quantity_value obs);
                                 observation_unit obs;
                                 observation_status obs ] |}.

(** A Patient resource, as far as the loader reads it. *)
Definition is_Patient (patient : gmap string JsVal) : Prop :=
  optional_string (patient !! "gender") = true
  ∧ ascii_initial (text_or (patient !! "gender") "unknown")
  ∧ optional_string (patient !! "birthDate") = true
  ∧ optional_string (patient !! "id") = true.

(** The observation query failed with [e]: it was rejected, or its
    handler threw. *)
Definition lab_failure (answer : Settled JsVal) (w : World) (e : Failure) : Prop :=
  answer = Rejected e
  ∨ ∃ v w1, answer = Resolved v ∧ labs_then NumberToString v w = (Throw e, w1).

(** The patient request failed with [e]: it was rejected, or its handler
    threw. *)
Definition patient_failure (answer : Settled JsVal) (w : World) (e : Failure) : Prop :=
  answer = Rejected e
  ∨ ∃ v w1, answer = Resolved v ∧ patient_then NumberToString v w = (Throw e, w1).

End Rows.

(** What [encodeURIComponent] writes for one byte. *)
Definition encoded_byte (c : Ascii.ascii) : string :=
  JsString.encodeURIComponent (String c "").

(** An identifier of letters, digits and the marks that need no
    escaping. *)
Definition plain_id (s : string) : Prop :=
  Forall (λ c, JsString.unreserved c = true) (String.list_ascii_of_string s).

(** [w1] is [w] but for the table body. *)
Definition only_table_differs (w w1 : World) : Prop :=
  status w1 = status w ∧ patient_info w1 = patient_info w
  ∧ lab_chart w1 = lab_chart w ∧ console w1 = console w
  ∧ requests w1 = requests w ∧ trace w1 = trace w.

(** A value of number type. *)
Definition is_number (v : JsVal) : Prop := ∃ q, v = JNum q.

(** A date label of the chart: not empty, ten characters at most. *)
Definition is_date_label (d : string) : Prop := d ≠ "" ∧ String.length d ≤ 10.

(** What the page shows and what it has asked for: all of the world but
    the console and the trace. *)
Definition same_page (w1 w2 : World) : Prop :=
  status w1 = status w2 ∧ patient_info w1 = patient_info w2
  ∧ lab_table_body w1 = lab_table_body w2 ∧ lab_chart w1 = lab_chart w2
  ∧ requests w1 = requests w2.

(** The page after the lab handlers: a note on the status line, the table
    and the chart replaced, what was logged and what was called. *)
Definition lab_rendering (note : string) (tb : TableBody) (chart : ChartOptions)
    (logs : list (string * Failure)) (calls : list Call) (w : World) : World :=
  {| status := status w +:+ note; patient_info := patient_info w;
     lab_table_body := tb; lab_chart := Some chart;
     console := console w ++ logs; requests := requests w;
     trace := trace w ++ calls |}.

(** The page after the patient handlers: the panel replaced, and what was
    logged. *)
Definition patient_rendering (info : string) (logs : list (string * Failure))
    (w : World) : World :=
  {| status := status w; patient_info := info;
     lab_table_body := lab_table_body w; lab_chart := lab_chart w;
     console := console w ++ logs; requests := requests w; trace := trace w |}.

(** The table body after [tbody.innerHTML = s]. *)
Definition table_markup (s : string) : TableBody := {| markup := s; appended := [] |}.

(** ** Sample resources *)

(** [Number::toString] on whole numbers, which is all the samples hold. *)
Definition whole_number (q : Q) : string :=
  NilZero.string_of_int (Z.to_int (Qnum q / Z.pos (Qden q))).

Definition blank_page : World :=
  {| status := ""; patient_info := "";
     lab_table_body := {| markup := ""; appended := [] |};
     lab_chart := None; console := []; requests := []; trace := [] |}.

Definition jane : gmap string JsVal :=
  {[ "id" := JStr "smart-1288992";
     "gender" := JStr "female";
     "name" := JArr [ JObj {[ "given" := JArr [JStr "Jane"; JStr "Q"];
                              "family" := JStr "Doe" ]} ] ]}.

Definition nameless : gmap string JsVal := {[ "id" := JStr "p2" ]}.

Definition effective_2020 : gmap string JsVal :=
  {[ "effectiveDateTime" := JStr "2020-05-01T10:00:00Z";
     "issued" := JStr "2020-05-02T08:30:00Z";
     "status" := JStr "final";
     "valueQuantity" := JObj {[ "value" := JNum 180; "unit" := JStr "mg/dL" ]} ]}.

Definition issued_2019 : gmap string JsVal :=
  {[ "issued" := JStr "2019-01-15T00:00:00Z";
     "valueQuantity" := JObj {[ "value" := JNum 195; "code" := JStr "mg/dL" ]} ]}.

Definition undated : gmap string JsVal :=
  {[ "status" := JStr "final";
     "valueQuantity" := JObj {[ "value" := JNum 200 ]} ]}.

Definition coded : gmap string JsVal :=
  {[ "effectiveDateTime" := JStr "2021-03-04T09:00:00Z";
     "valueQuantity" := JObj {[ "value" := JStr "HIGH" ]} ]}.

Definition year_only : gmap string JsVal := {[ "effectiveDateTime" := JStr "2020" ]}.

Definition year_month : gmap string JsVal := {[ "issued" := JStr "2020-05" ]}.

Definition sample_observations : list JsVal :=
  [JObj issued_2019; JObj effective_2020; JObj coded; JObj undated].

Definition missing_state : Failure :=
  {| description := "Error: No 'state' parameter found. Please (re)launch the app.";
     message := Some "No 'state' parameter found. Please (re)launch the app." |}.

Definition access_denied : Failure :=
  {| description := "Error: access_denied"; message := Some "access_denied" |}.

Definition padded_name : JsVal :=
  JObj {[ "given" := JArr [JStr " Ann"; JStr ""]; "family" := JStr "Lee  " ]}.

(** An identifier full of delimiters. *)
Definition hostile_id : string := "x&patient=y?z#/..".

(** An array whose second element is no observation. *)
Definition broken_observations : JsVal := JArr [JObj effective_2020; JNull].

(** Dev mode from a blank page, then both answers of the server. *)
Definition dev_mode_session : World :=
  let w1 := (entry_point (Rejected missing_state) blank_page).2 in
  let w2 := (settle whole_number PatientHandlers (Resolved (JObj jane)) w1).2 in
  (settle whole_number LabHandlers (Resolved (JArr sample_observations)) w2).2.

(** ** Properties of the helpers *)

Lemma substring_first_chars (s : string) (n : nat) :
  JsString.substring s 0 n = first_chars n s.
Proof.
  unfold JsString.substring.
  rewrite !Nat.min_0_l, Nat.max_0_l, Nat.sub_0_r.
  revert n. induction s as [|c s IH]; intros [|n]; simpl; try reflexivity.
  f_equal. apply IH.
Qed.

Lemma first_chars_length (n : nat) (s : string) :
  String.length (first_chars n s) = Nat.min n (String.length s).
Proof.
  revert s. induction n as [|n IH]; intros [|c s]; simpl; try reflexivity.
  f_equal. apply IH.
Qed.

Lemma first_chars_prefix (n : nat) (s : string) :
  String.prefix (first_chars n s) s = true.
Proof.
  revert s. induction n as [|n IH]; intros [|c s]; simpl; try reflexivity.
  destruct (Ascii.ascii_dec c c) as [_|Hne]; [apply IH | congruence].
Qed.

Lemma first_chars_all (n : nat) (s : string) :
  String.length s ≤ n → first_chars n s = s.
Proof.
  revert s. induction n as [|n IH]; intros [|c s]; simpl; intros H;
    try reflexivity; try lia.
  f_equal. apply IH. lia.
Qed.

Lemma prefix_append (t b : string) : String.prefix t (t +:+ b) = true.
Proof.
  induction t as [|c t IH]; simpl; [destruct b; reflexivity|].
  destruct (Ascii.ascii_dec c c) as [_|Hne]; [exact IH | congruence].
Qed.

Lemma prefix_split (t s : string) :
  String.prefix t s = true → ∃ b, s = t +:+ b.
Proof.
  revert s. induction t as [|c t IH]; intros s H.
  - exists s. reflexivity.
  - destruct s as [|c' s]; [discriminate|]. simpl in H.
    destruct (Ascii.ascii_dec c c') as [->|_]; [|discriminate].
    destruct (IH s H) as [b ->]. exists b. reflexivity.
Qed.

Lemma includes_unfold (s t : string) :
  JsString.includes s t
  = String.prefix t s
    || match s with
       | EmptyString => false
       | String _ s' => JsString.includes s' t
       end.
Proof. destruct s; reflexivity. Qed.

(** [includes] finds [t] exactly when [t] lies somewhere in [s]. *)
Lemma includes_spec (s t : string) :
  JsString.includes s t = true ↔ ∃ a b, s = a +:+ t +:+ b.
Proof.
  split.
  - induction s as [|c s IH]; rewrite includes_unfold; intros H;
      apply orb_prop in H as [H | H]; try discriminate.
    + apply prefix_split in H as [b ->]. exists "", b. reflexivity.
    + apply prefix_split in H as [b ->]. exists "", b. reflexivity.
    + destruct (IH H) as (a & b & ->). exists (String c a), b. reflexivity.
  - intros (a & b & ->). induction a as [|c a IH].
    + change ("" +:+ t +:+ b) with (t +:+ b).
      rewrite includes_unfold, prefix_append. reflexivity.
    + change (String c a +:+ t +:+ b) with (String c (a +:+ t +:+ b)).
      cbn [JsString.includes]. rewrite IH. apply orb_true_r.
Qed.

Lemma drop_length (n : nat) (s : string) :
  String.length (JsString.drop n s) = String.length s - n.
Proof.
  revert s. induction n as [|n IH]; intros [|c s]; simpl; try reflexivity.
  apply IH.
Qed.

(** The fuel of [strip] is enough: what it returns starts with none of
    the strings it strips. *)
Lemma strip_done (spaces : list string) :
  Forall (λ ws, ws ≠ "") spaces →
  ∀ fuel s, String.length s ≤ fuel →
    List.find (λ ws, String.prefix ws (JsString.strip spaces fuel s)) spaces = None.
Proof.
  intros Hne. induction fuel as [|fuel IH]; intros s Hlen.
  - destruct s; [|simpl in Hlen; lia]. simpl.
    destruct (List.find _ spaces) as [ws|] eqn:Hfind; [|reflexivity].
    apply List.find_some in Hfind as [Hin Hpre].
    rewrite Forall_forall in Hne. apply list_elem_of_In, Hne in Hin.
    destruct ws; [congruence | discriminate].
  - simpl.
    destruct (List.find (λ ws, String.prefix ws s) spaces) as [ws|] eqn:Hfind;
      [|exact Hfind].
    apply IH. apply List.find_some in Hfind as [Hin Hpre].
    rewrite Forall_forall in Hne. apply list_elem_of_In, Hne in Hin.
    rewrite drop_length. destruct ws as [|c ws]; [congruence|].
    apply prefix_split in Hpre as [b ->]. simpl in *. lia.
Qed.

Lemma trimStart_done (s : string) :
  List.find (λ ws, String.prefix ws (JsString.trimStart s)) JsString.white_space = None.
Proof.
  apply strip_done; [|reflexivity].
  apply Forall_forall. intros ws Hin. vm_compute in Hin.
  repeat (apply elem_of_cons in Hin as [-> | Hin]; [discriminate|]).
  apply elem_of_nil in Hin. contradiction.
Qed.

(** The rendered name is never empty. *)
Lemma display_name_not_empty name : display_name name ≠ "".
Proof.
  destruct name as [[given family]|]; [|discriminate]. simpl.
  destruct (String.eqb _ "") eqn:H; [discriminate|].
  apply String.eqb_neq in H. exact H.
Qed.

(** Unfolds the sequencing of statements. *)
Ltac run :=
  cbv [mbind mret M_bind M_ret outcome_bind outcome_ret lift modify
       appendChild set_innerHTML append_status called issue console_error];
  cbn beta iota.

Section Script_properties.

Variable NumberToString : Q → string.

Abbreviation toString := (Js.toString NumberToString).
Abbreviation is_observation := (observation_resource NumberToString).

Lemma getObservationDate_object (m : gmap string JsVal) :
  optional_string (m !! "effectiveDateTime") = true →
  optional_string (m !! "issued") = true →
  getObservationDate (JObj m)
  = Ok (extracted_date (timestamp (m !! "effectiveDateTime")) (timestamp (m !! "issued"))).
Proof.
  intros He Hi. unfold getObservationDate. simpl.
  destruct (m !! "effectiveDateTime") as [[| | | |[|c s]| |]|]; try discriminate; simpl;
    try (rewrite substring_first_chars; reflexivity);
    destruct (m !! "issued") as [[| | | |[|c' s']| |]|]; try discriminate; simpl;
    try reflexivity; rewrite substring_first_chars; reflexivity.
Qed.

Lemma join_strings (l : list string) (sep : string) :
  Js.call_join NumberToString (JArr (JStr <$> l)) sep = Ok (JsString.join l sep).
Proof.
  unfold Js.call_join.
  assert (H : mapM (Js.element_string NumberToString) (JStr <$> l) = Ok l).
  { induction l as [|x l IH]; [reflexivity|].
    change (mapM (Js.element_string NumberToString) (JStr <$> x :: l))
      with (y ← Js.element_string NumberToString (JStr x);
            k ← mapM (Js.element_string NumberToString) (JStr <$> l);
            Ok (y :: k)).
    rewrite IH. reflexivity. }
  rewrite H. reflexivity.
Qed.

Lemma formatHumanName_object (nm : gmap string JsVal) given family :
  strings_field nm "given" given →
  string_field nm "family" family →
  formatHumanName NumberToString (JObj nm) = Ok (display_name (Some (given, family))).
Proof.
  intros Hg Hf. unfold formatHumanName. simpl.
  assert (Hjoin : Js.call_join NumberToString
                    (Js.or (default JUndefined (nm !! "given")) (JArr [])) " "
                  = Ok (JsString.join given " ")).
  { destruct Hg as [-> | [-> ->]]; simpl; [apply join_strings | reflexivity]. }
  rewrite Hjoin. simpl.
  assert (Hfam : toString (Js.or (default JUndefined (nm !! "family")) (JStr ""))
                 = Ok family).
  { destruct Hf as [-> | [-> ->]]; simpl; [|reflexivity].
    unfold Js.or. simpl. destruct family; reflexivity. }
  rewrite Hfam. reflexivity.
Qed.

(** C5: the rendered name of a patient record is the given parts of its
    first listed name joined by single spaces, then the family name, the
    whole trimmed, and the marker "(no name)" when that is empty or when no
    name is listed; the name cell of the rendered panel holds it. *)
Theorem patient_name_rendered (patient : gmap string JsVal) name :
  first_name patient name →
  patient_name NumberToString (JObj patient) = Ok (display_name name)
  ∧ ∀ w w', patient_then NumberToString (JObj patient) w = (Ok tt, w') →
      ∃ gender dob id,
        patient_info w' = patient_template (display_name name) gender dob id.
Proof.
  intros Hname.
  assert (H : patient_name NumberToString (JObj patient) = Ok (display_name name)).
  { unfold patient_name. simpl.
    destruct Hname as [-> | -> | nm others given family -> Hg Hf]; simpl;
      try reflexivity.
    apply formatHumanName_object; assumption. }
  split; [exact H|].
  intros w w'. unfold patient_then. run. rewrite H. simpl.
  destruct (capitalize _) as [g|]; [|discriminate].
  destruct (toString (Js.or (default JUndefined (patient !! "birthDate")) _)) as [d|];
    [|discriminate].
  destruct (toString (Js.or (default JUndefined (patient !! "id")) _)) as [i|];
    [|discriminate].
  intros [= <-]. exists g, d, i. reflexivity.
Qed.

(** C6: the extracted date is the date portion of the effective
    timestamp when one is present (a non-empty string), otherwise that of
    the issued timestamp when present, otherwise the empty string. *)
Theorem date_extraction (m : gmap string JsVal) :
  optional_string (m !! "effectiveDateTime") = true →
  optional_string (m !! "issued") = true →
  getObservationDate (JObj m)
  = Ok (extracted_date (timestamp (m !! "effectiveDateTime"))
                       (timestamp (m !! "issued"))).
Proof. apply getObservationDate_object. Qed.

(** C10: on an observation whose timestamps are strings,
    [getObservationDate] returns without throwing; what it returns is the
    first min(10, length) characters of the timestamp it chose, hence the
    whole timestamp when that is shorter than ten characters. *)
Theorem getObservationDate_total (m : gmap string JsVal) :
  optional_string (m !! "effectiveDateTime") = true →
  optional_string (m !! "issued") = true →
  ∃ date,
    getObservationDate (JObj m) = Ok date
    ∧ match chosen_timestamp m with
      | Some s =>
          date = first_chars (Nat.min 10 (String.length s)) s
          ∧ String.length date = Nat.min 10 (String.length s)
          ∧ String.prefix date s = true
          ∧ (String.length s < 10 → date = s)
      | None => date = ""
      end.
Proof.
  intros He Hi. eexists. split; [apply getObservationDate_object; assumption|].
  unfold chosen_timestamp, extracted_date.
  assert (Hs : ∀ s, date_portion s = first_chars (Nat.min 10 (String.length s)) s
                    ∧ String.length (date_portion s) = Nat.min 10 (String.length s)
                    ∧ String.prefix (date_portion s) s = true
                    ∧ (String.length s < 10 → date_portion s = s)).
  { intros s. unfold date_portion. repeat split.
    - destruct (Nat.min_spec 10 (String.length s)) as [[Hlt ->] | [Hle ->]];
        [reflexivity|].
      rewrite !first_chars_all by lia. reflexivity.
    - apply first_chars_length.
    - apply first_chars_prefix.
    - intros Hlt. apply first_chars_all. lia. }
  destruct (timestamp (m !! "effectiveDateTime")) as [s|]; [apply Hs|].
  destruct (timestamp (m !! "issued")) as [s|]; [apply Hs | reflexivity].
Qed.

(** Case analysis on every call that may throw. *)
Ltac outcomes :=
  repeat match goal with
         | |- context [match ?o with Ok _ => _ | Throw _ => _ end] =>
             destruct o eqn:?; try discriminate
         end.

Lemma append_rows_nil w : append_rows [] w = w.
Proof.
  destruct w as [? ? [? ?] ? ? ? ?]. unfold append_rows, set_lab_table_body. simpl.
  rewrite app_nil_r. reflexivity.
Qed.

Lemma append_rows_app rows rows' w :
  append_rows rows' (append_rows rows w) = append_rows (rows ++ rows') w.
Proof.
  unfold append_rows, set_lab_table_body. simpl. rewrite app_assoc. reflexivity.
Qed.

(** A turn of the callback appends one [tr] and pushes onto both arrays or
    onto neither; a turn that throws leaves the page as it was. *)
Lemma callback_outcome obs ds vs w r w' :
  forEach_callback NumberToString obs (ds, vs) w = (r, w') →
  match r with
  | Ok (ds', vs') =>
      ∃ row, w' = append_rows [row] w ∧ tagName row = "tr"
        ∧ ((ds' = ds ∧ vs' = vs) ∨ ∃ d v, ds' = ds ++ [d] ∧ vs' = vs ++ [v])
  | Throw _ => w' = w
  end.
Proof.
  unfold forEach_callback. run. outcomes; intros [= <- <-]; try reflexivity.
  destruct (negb _ && _); eexists; (split; [reflexivity|]); (split; [reflexivity|]);
    eauto.
Qed.

Lemma forEach_elements_cons obs l arrays w :
  forEach_elements NumberToString (obs :: l) arrays w
  = match forEach_callback NumberToString obs arrays w with
    | (Ok arrays', w1) => forEach_elements NumberToString l arrays' w1
    | (Throw e, w1) => (Throw e, w1)
    end.
Proof. reflexivity. Qed.

Lemma forEach_elements_outcome l : ∀ ds vs w r w',
  forEach_elements NumberToString l (ds, vs) w = (r, w') →
  ∃ rows, w' = append_rows rows w ∧ Forall is_tr rows
    ∧ match r with
      | Ok (ds', vs') =>
          length rows = length l
          ∧ ∃ dsn vsn, ds' = ds ++ dsn ∧ vs' = vs ++ vsn
              ∧ length dsn = length vsn ∧ length dsn ≤ length l
      | Throw _ => True
      end.
Proof.
  induction l as [|obs l IH]; intros ds vs w r w'.
  - simpl. intros [= <- <-]. exists []. rewrite append_rows_nil.
    repeat split; [constructor|]. exists [], []. rewrite !app_nil_r. auto.
  - rewrite forEach_elements_cons.
    destruct (forEach_callback _ obs (ds, vs) w) as [[[ds1 vs1]|e] w1] eqn:Hcb;
      apply callback_outcome in Hcb.
    + destruct Hcb as (row & -> & Hrow & Hpush). intros Hrest.
      apply IH in Hrest as (rows & -> & Hrows & Hr).
      exists (row :: rows). rewrite append_rows_app. split; [reflexivity|].
      split; [constructor; assumption|].
      destruct r as [[ds' vs']|]; [|exact I].
      destruct Hr as (Hlen & dsn & vsn & -> & -> & Hpair & Hle).
      split; [simpl; lia|].
      destruct Hpush as [[-> ->] | (d & v & -> & ->)].
      * exists dsn, vsn. repeat split; simpl; auto.
      * exists (d :: dsn), (v :: vsn). rewrite <- !app_assoc.
        repeat split; simpl; lia.
    + subst w1. intros [= <- <-]. exists []. rewrite append_rows_nil.
      repeat split. constructor.
Qed.

Lemma date_cell_same (date : string) :
  (if negb (String.eqb date "") then date else "") = date.
Proof. destruct date; reflexivity. Qed.

Lemma has_date_observation_date (m : gmap string JsVal) :
  negb (String.eqb (observation_date (JObj m)) "") = has_date (JObj m).
Proof.
  unfold observation_date, has_date, chosen_timestamp, extracted_date.
  destruct (timestamp (m !! "effectiveDateTime")) as [s|] eqn:He.
  - destruct (m !! "effectiveDateTime") as [[| | | |[|c s']| |]|]; try discriminate.
    injection He as <-. reflexivity.
  - destruct (timestamp (m !! "issued")) as [s|] eqn:Hi; [|reflexivity].
    destruct (m !! "issued") as [[| | | |[|c s']| |]|]; try discriminate.
    injection Hi as <-. reflexivity.
Qed.

Lemma typeof_number (v : JsVal) :
  String.eqb (typeof v) "number" = match v with JNum _ => true | _ => false end.
Proof. destruct v; reflexivity. Qed.

(** On an Observation resource the callback returns: it appends the row of
    the observation and pushes its date and value when it has both. *)
Lemma callback_observation obs ds vs w :
  is_Observation NumberToString obs = true →
  ∃ value_cell unit_cell status_cell,
    (if not_nullish (quantity_value obs) then toString (quantity_value obs) else Ok "")
    = Ok value_cell
    ∧ forEach_callback NumberToString obs (ds, vs) w
      = (Ok (if charted obs
             then (ds ++ [observation_date obs], vs ++ [quantity_value obs])
             else (ds, vs)),
         append_rows [ {| tagName := "tr";
                          innerHTML := row_template (observation_date obs)
                                         value_cell unit_cell status_cell |} ] w).
Proof.
  destruct obs as [| | | | | |m]; try discriminate. unfold is_Observation.
  intros H. apply andb_prop in H as [H Hq]. apply andb_prop in H as [H Hs].
  apply andb_prop in H as [He Hi].
  unfold forEach_callback. run.
  rewrite (getObservationDate_object m He Hi).
  change (extracted_date _ _) with (observation_date (JObj m)).
  rewrite date_cell_same, has_date_observation_date.
  unfold charted, numeric_value, quantity_value. cbn [get].
  assert (Hstatus : ∃ st, toString (Js.or (default JUndefined (m !! "status")) (JStr ""))
                          = Ok st).
  { destruct (m !! "status") as [[| | | |[|c s]| |]|]; try discriminate Hs;
      simpl; eauto. }
  destruct Hstatus as [st ->].
  destruct (m !! "valueQuantity") as [[| | | | | |q]|] eqn:Hvq; try discriminate Hq.
  - simpl. rewrite !lookup_empty. simpl. rewrite andb_false_r.
    exists "", "", st. split; reflexivity.
  - simpl in Hq. apply andb_prop in Hq as [Hq Hc]. apply andb_prop in Hq as [Hv Hu].
    unfold printable in Hv. simpl.
    set (v := default JUndefined (q !! "value")) in *.
    destruct (toString v) as [vc|] eqn:Hvc; [|discriminate].
    assert (Hunit : ∃ u, (if truthy (default JUndefined (q !! "unit"))
                          then Ok (default JUndefined (q !! "unit"))
                          else Ok (Js.or (default JUndefined (q !! "code")) (JStr "")))
                         = Ok u ∧ ∃ uc, toString u = Ok uc).
    { destruct (q !! "unit") as [[| | | |[|c s]| |]|]; try discriminate Hu;
        simpl; eauto;
        destruct (q !! "code") as [[| | | |[|c' s']| |]|]; try discriminate Hc;
        simpl; eauto. }
    destruct Hunit as (u & -> & uc & ->).
    rewrite typeof_number.
    destruct (not_nullish v); eexists _, uc, st; (split; [reflexivity|]);
      reflexivity.
  - simpl. rewrite !lookup_empty. simpl. rewrite andb_false_r.
    exists "", "", st. split; reflexivity.
Qed.

Lemma forEach_elements_observations l : ∀ ds vs w,
  Forall is_observation l →
  ∃ rows,
    length rows = length l ∧ Forall is_tr rows
    ∧ forEach_elements NumberToString l (ds, vs) w
      = (Ok (ds ++ (observation_date <$> List.filter charted l),
             vs ++ (quantity_value <$> List.filter charted l)),
         append_rows rows w).
Proof.
  induction l as [|obs l IH]; intros ds vs w Hl.
  - exists []. simpl. rewrite !app_nil_r, append_rows_nil. repeat constructor.
  - inversion Hl as [|? ? Hobs Hl']; subst.
    destruct (callback_observation obs ds vs w Hobs) as (vc & uc & st & _ & Hcb).
    rewrite forEach_elements_cons, Hcb.
    destruct (IH (if charted obs then ds ++ [observation_date obs] else ds)
                 (if charted obs then vs ++ [quantity_value obs] else vs)
                 (append_rows [ {| tagName := "tr";
                     innerHTML := row_template (observation_date obs) vc uc st |} ] w)
                 Hl') as (rows & Hlen & Htr & Hrest).
    exists ({| tagName := "tr";
               innerHTML := row_template (observation_date obs) vc uc st |} :: rows).
    split; [simpl; lia|]. split; [constructor; [reflexivity|assumption]|].
    simpl List.filter. destruct (charted obs); rewrite Hrest, append_rows_app;
      simpl; rewrite <- ?app_assoc; reflexivity.
Qed.

Lemma labs_then_nonempty obs l w :
  labs_then NumberToString (JArr (obs :: l)) w
  = match forEach_elements NumberToString (obs :: l) ([], [])
            (set_lab_table_body {| markup := ""; appended := [] |} w) with
    | (Ok (ds, vs), w1) => renderChart ds vs w1
    | (Throw e, w1) => (Throw e, w1)
    end.
Proof.
  unfold labs_then. cbn [truthy negb get]. run.
  change (strict_equals_number _ 0) with false. cbn iota.
  unfold forEach. destruct (forEach_elements _ _ _ _) as [[[ds vs]|e] w1]; reflexivity.
Qed.

Lemma labs_then_empty observations w :
  observations = JArr [] ∨ observations = JUndefined ∨ observations = JNull →
  labs_then NumberToString observations w = no_results w.
Proof. intros [-> | [-> | ->]]; reflexivity. Qed.

Lemma rows_all_tr rows :
  Forall is_tr rows →
  length (List.filter (λ e, String.eqb (tagName e) "tr") rows) = length rows.
Proof.
  induction 1 as [|row rows Hrow _ IH]; [reflexivity|].
  simpl. unfold is_tr in Hrow. rewrite Hrow. simpl. f_equal. exact IH.
Qed.

Lemma renderChart_rows ds vs rows w :
  Forall is_tr rows →
  table_rows (renderChart ds vs
                (append_rows rows (set_lab_table_body {| markup := ""; appended := [] |} w))).2
  = length rows.
Proof.
  intros Htr. unfold renderChart. run.
  destruct (bool_decide _ || bool_decide _); unfold table_rows; simpl;
    apply rows_all_tr; assumption.
Qed.

Lemma renderChart_points ds vs w :
  length ds = length vs →
  chart_points (renderChart ds vs w).2 = length vs.
Proof.
  intros Hlen. unfold renderChart. run.
  destruct ds as [|d ds], vs as [|v vs]; try discriminate; simpl; [reflexivity|].
  unfold chart_points, chart_data. simpl. rewrite app_nil_r. reflexivity.
Qed.

Lemma renderChart_data ds vs w :
  length ds = length vs →
  chart_data (renderChart ds vs w).2 = vs.
Proof.
  intros Hlen. unfold renderChart. run.
  destruct ds as [|d ds], vs as [|v vs]; try discriminate; simpl; [reflexivity|].
  unfold chart_data. simpl. rewrite app_nil_r. reflexivity.
Qed.

Lemma renderChart_returns ds vs w :
  renderChart ds vs w = (Ok tt, (renderChart ds vs w).2).
Proof.
  unfold renderChart. run. destruct (bool_decide _ || bool_decide _); reflexivity.
Qed.

Lemma renderChart_trace ds vs w :
  trace (renderChart ds vs w).2 = trace w ++ [RenderChart ds vs].
Proof.
  unfold renderChart. run. destruct (bool_decide _ || bool_decide _); reflexivity.
Qed.

Lemma renderChart_aligned ds vs w :
  length ds = length vs →
  ∃ c, lab_chart (renderChart ds vs w).2 = Some c ∧ aligned c.
Proof.
  intros Hlen. unfold renderChart. run.
  destruct (bool_decide _ || bool_decide _); eexists; (split; [reflexivity|]).
  - constructor.
  - repeat constructor. simpl. lia.
Qed.

Lemma labs_then_rows (l : list JsVal) (w w' : World) :
  l ≠ [] →
  labs_then NumberToString (JArr l) w = (Ok tt, w') →
  table_rows w' = length l ∧ chart_points w' ≤ table_rows w'.
Proof.
  destruct l as [|obs l]; [congruence|]. intros _.
  rewrite labs_then_nonempty.
  destruct (forEach_elements _ _ _ _) as [[[ds vs]|e] w1] eqn:Hloop;
    [|discriminate].
  apply forEach_elements_outcome in Hloop
    as (rows & -> & Htr & Hlen & dsn & vsn & -> & -> & Hpair & Hle).
  rewrite renderChart_returns. intros [= <-].
  rewrite renderChart_rows by assumption.
  rewrite renderChart_points by assumption. simpl in *. lia.
Qed.

Lemma labs_then_chart (l : list JsVal) (w : World) :
  Forall is_observation l →
  ∃ w', labs_then NumberToString (JArr l) w = (Ok tt, w')
    ∧ chart_points w' = charted_count l
    ∧ chart_data w' = quantity_value <$> List.filter charted l.
Proof.
  intros Hl. destruct l as [|obs l].
  - eexists. split; [reflexivity|]. split; reflexivity.
  - rewrite labs_then_nonempty.
    destruct (forEach_elements_observations (obs :: l) [] []
                (set_lab_table_body {| markup := ""; appended := [] |} w) Hl)
      as (rows & _ & _ & ->).
    eexists. split; [apply renderChart_returns|].
    unfold chart_points, charted_count.
    rewrite renderChart_data by (simpl; rewrite !length_fmap; reflexivity).
    simpl app. rewrite length_fmap. split; reflexivity.
Qed.

(** C2: on the success path of the Lab Series Loader a non-empty
    sequence of observations gives as many table rows as it has elements,
    and no more chart points than rows; on Observation resources the
    success path is the one taken. *)
Theorem rows_equal_observations (l : list JsVal) (w : World) :
  l ≠ [] →
  (∀ w', labs_then NumberToString (JArr l) w = (Ok tt, w') →
         table_rows w' = length l ∧ chart_points w' ≤ table_rows w')
  ∧ (Forall is_observation l →
     ∃ w', labs_then NumberToString (JArr l) w = (Ok tt, w')).
Proof.
  intros Hne. split.
  - intros w'. apply labs_then_rows. exact Hne.
  - intros Hl. destruct (labs_then_chart l w Hl) as (w' & Hw' & _).
    exists w'. exact Hw'.
Qed.

(** C3: for a sequence of Observation resources the chart has one point
    for each observation with both a resolvable date and a numeric value,
    in their order, and none for the others. *)
Theorem chart_points_are_charted (l : list JsVal) (w : World) :
  Forall is_observation l →
  ∃ w', labs_then NumberToString (JArr l) w = (Ok tt, w')
    ∧ chart_points w' = charted_count l
    ∧ chart_data w' = quantity_value <$> List.filter charted l.
Proof. apply labs_then_chart. Qed.

(** C4: an observation that carries a value of another type than number
    gets exactly one table row, whose value cell shows that value as it
    is (a coded string unchanged), and puts nothing into the chart. *)
Theorem coded_value_row (obs : JsVal) ds vs (w : World) :
  is_observation obs →
  not_nullish (quantity_value obs) = true →
  numeric_value obs = false →
  ∃ date_cell value_cell unit_cell status_cell,
    toString (quantity_value obs) = Ok value_cell
    ∧ (∀ code, quantity_value obs = JStr code → value_cell = code)
    ∧ forEach_callback NumberToString obs (ds, vs) w
      = (Ok (ds, vs),
         append_rows
           [ {| tagName := "tr";
                innerHTML := row_of_cells [date_cell; value_cell; unit_cell; status_cell] |} ]
           w)
    ∧ ∃ w', labs_then NumberToString (JArr [obs]) w = (Ok tt, w')
        ∧ table_rows w' = 1 ∧ chart_points w' = 0.
Proof.
  intros Hobs Hvalue Hnum.
  destruct (callback_observation obs ds vs w Hobs) as (vc & uc & st & Hvc & Hcb).
  rewrite Hvalue in Hvc.
  assert (Hcharted : charted obs = false).
  { unfold charted. rewrite Hnum. apply andb_false_r. }
  rewrite Hcharted in Hcb.
  exists (observation_date obs), vc, uc, st.
  split; [exact Hvc|]. split.
  { intros code Hcode. rewrite Hcode in Hvc. simpl in Hvc. congruence. }
  split; [exact Hcb|].
  destruct (labs_then_chart [obs] w) as (w' & Hw' & Hpoints & _);
    [repeat constructor; exact Hobs|].
  exists w'. split; [exact Hw'|]. split.
  - apply (labs_then_rows [obs] w); [discriminate | exact Hw'].
  - rewrite Hpoints. unfold charted_count. simpl. rewrite Hcharted. reflexivity.
Qed.

(** C8: an empty or absent result set appends the no-results note to the
    status line, leaves the table with the one placeholder row that spans
    all four columns and reads "No cholesterol results.", and draws the
    placeholder chart: no series, title "No data to display". *)
Theorem empty_result_set (observations : JsVal) (w : World) :
  empty_or_absent observations →
  ∃ w' c,
    labs_then NumberToString observations w = (Ok tt, w')
    ∧ status w' = status w +:+ " • No cholesterol results found for this patient."
    ∧ lab_table_body w'
      = {| markup := spanning_row table_columns "No cholesterol results.";
           appended := [] |}
    ∧ table_rows w' = 1
    ∧ lab_chart w' = Some c
    ∧ series c = [] ∧ title_text c = "No data to display"
    ∧ chart_points w' = 0.
Proof.
  intros H. rewrite (labs_then_empty observations w H).
  eexists _, _. split; [reflexivity|]. repeat split.
Qed.

Lemma labs_then_cases (observations : JsVal) (w : World) :
  labs_then NumberToString observations w = no_results w
  ∨ (∃ e, labs_then NumberToString observations w
          = (Throw e, set_lab_table_body {| markup := ""; appended := [] |} w))
  ∨ ∃ obs l, observations = JArr (obs :: l).
Proof.
  destruct observations as [| |[|]|q|[|c s]|[|obs l]|m];
    try (left; reflexivity);
    try (right; left; eexists; reflexivity);
    try (right; right; eexists _, _; reflexivity).
  - unfold labs_then. simpl. destruct (Qeq_bool q 0); simpl.
    + left. reflexivity.
    + right. left. eexists. reflexivity.
  - unfold labs_then. simpl. run.
    destruct (strict_equals_number _ 0).
    + left. reflexivity.
    + right. left. eexists. reflexivity.
Qed.

Lemma no_results_world (w : World) :
  trace (no_results w).2 = trace w ++ [RenderChart [] []]
  ∧ lab_chart (no_results w).2 = Some no_data_chart.
Proof. split; reflexivity. Qed.

Lemma labs_catch_world (e : Failure) (w : World) :
  labs_catch e w = (Ok tt, (labs_catch e w).2)
  ∧ trace (labs_catch e w).2 = trace w ++ [RenderChart [] []]
  ∧ lab_chart (labs_catch e w).2 = Some no_data_chart.
Proof. repeat split. Qed.

(** C9: however the observation query is settled, the Lab Series Loader
    calls the chart renderer once, with a dates array and a values array
    of equal length, and the chart drawn has one data point per category
    label. *)
Theorem dates_values_paired (answer : Settled JsVal) (w : World) :
  let w' := (settle NumberToString LabHandlers answer w).2 in
  ∃ dates values c,
    trace w' = trace w ++ [RenderChart dates values]
    ∧ length dates = length values
    ∧ lab_chart w' = Some c ∧ aligned c.
Proof.
  assert (Hcatch : ∀ e w1, trace w1 = trace w →
    ∃ dates values c,
      trace (labs_catch e w1).2 = trace w ++ [RenderChart dates values]
      ∧ length dates = length values
      ∧ lab_chart (labs_catch e w1).2 = Some c ∧ aligned c).
  { intros e w1 Htrace. exists [], [], no_data_chart.
    destruct (labs_catch_world e w1) as (_ & -> & ->). rewrite Htrace.
    repeat split. constructor. }
  simpl. unfold settle, then_catch. destruct answer as [observations|e];
    [|apply Hcatch; reflexivity].
  destruct (labs_then_cases observations w) as [-> | [[e ->] | (obs & l & ->)]].
  - exists [], [], no_data_chart. repeat split. constructor.
  - apply Hcatch. reflexivity.
  - rewrite labs_then_nonempty.
    destruct (forEach_elements _ _ _ _) as [[[ds vs]|e] w1] eqn:Hloop;
      apply forEach_elements_outcome in Hloop as (rows & -> & _ & Hr).
    + destruct Hr as (_ & dsn & vsn & -> & -> & Hpair & _).
      rewrite renderChart_returns. simpl.
      destruct (renderChart_aligned dsn vsn
                  (append_rows rows
                     (set_lab_table_body {| markup := ""; appended := [] |} w)) Hpair)
        as (c & Hc & Hal).
      exists dsn, vsn, c. rewrite renderChart_trace. auto.
    + apply Hcatch. reflexivity.
Qed.

Lemma encode_dev_patient :
  JsString.encodeURIComponent DEV_PATIENT_ID = "smart-1288992".
Proof. vm_compute. reflexivity. Qed.

Lemma encode_loinc_code :
  JsString.encodeURIComponent "http://loinc.org|2093-3" = "http%3A%2F%2Floinc.org%7C2093-3".
Proof. vm_compute. reflexivity. Qed.

(** C1: when session establishment fails and the failure's string form
    contains the missing-launch-parameter phrase, the script makes the
    fallback session, a client of "https://r3.smarthealthit.org" with
    patient "smart-1288992", and calls the Patient Loader and then the Lab
    Series Loader with it; each sends its request to that server for that
    patient. *)
Theorem dev_mode_fallback (error : Failure) (w : World) :
  JsString.includes (description error) "No 'state' parameter" = true →
  let client := FHIR_client "https://r3.smarthealthit.org" in
  let patientId := Some "smart-1288992" in
  let w' := (entry_point (Rejected error) w).2 in
  entry_point (Rejected error) w = (Ok tt, w')
  ∧ state_serverUrl client = "https://r3.smarthealthit.org"
  ∧ trace w' = trace w ++ [LoadPatient client patientId;
                           LoadCholesterolLabs client patientId]
  ∧ requests w'
    = requests w ++
      [ {| on_client := client;
           fetch := ClientRequest "Patient/smart-1288992" None;
           handlers := PatientHandlers |};
        {| on_client := client;
           fetch := ClientRequest
                      "Observation?patient=smart-1288992&code=http%3A%2F%2Floinc.org%7C2093-3&_sort=date"
                      (Some {| pageLimit := 3; flat := true |});
           handlers := LabHandlers |} ].
Proof.
  intros Hphrase. cbv zeta. unfold entry_point, then_catch, ready_catch. run.
  rewrite Hphrase. unfold loadPatient, loadCholesterolLabs.
  change (truthy_text (Some DEV_PATIENT_ID)) with true. run.
  change (default "" (Some DEV_PATIENT_ID)) with DEV_PATIENT_ID.
  rewrite encode_dev_patient, encode_loinc_code.
  change (truthy_text (Some DEV_PATIENT_ID)) with true. cbn [negb]. cbv iota beta.
  cbn [snd requests trace add_request add_call set_status log_error state_serverUrl
       FHIR_client].
  rewrite <- !app_assoc. repeat split.
Qed.

(** C7: when the failure's string form does not contain the phrase, the
    script writes the failure's message to the status line, or the
    failure's description when it has no message, and calls neither
    loader: no request is sent and no other region is touched. *)
Theorem other_launch_failure (error : Failure) (w : World) :
  JsString.includes (description error) "No 'state' parameter" = false →
  let w' := (entry_point (Rejected error) w).2 in
  entry_point (Rejected error) w = (Ok tt, w')
  ∧ status w' = "Launch error: " +:+ match message error with
                                     | Some (String c m) => String c m
                                     | _ => description error
                                     end
  ∧ trace w' = trace w
  ∧ requests w' = requests w
  ∧ patient_info w' = patient_info w
  ∧ lab_table_body w' = lab_table_body w
  ∧ lab_chart w' = lab_chart w.
Proof.
  intros Hphrase. simpl. unfold ready_catch. run. rewrite Hphrase. simpl.
  unfold message_or_description.
  destruct (message error) as [[|c m]|]; repeat split.
Qed.

End Script_properties.

(** ** Further properties of the script *)

Lemma append_assoc (a b c : string) : (a +:+ b) +:+ c = a +:+ b +:+ c.
Proof.
  induction a as [|x a IH]; [reflexivity|].
  change (String x ((a +:+ b) +:+ c) = String x (a +:+ b +:+ c)). f_equal. exact IH.
Qed.

Lemma append_empty_r (a : string) : a +:+ "" = a.
Proof.
  induction a as [|x a IH]; [reflexivity|].
  change (String x (a +:+ "") = String x a). f_equal. exact IH.
Qed.

Lemma append_length (a b : string) :
  String.length (a +:+ b) = String.length a + String.length b.
Proof.
  induction a as [|x a IH]; [reflexivity|].
  change (S (String.length (a +:+ b)) = S (String.length a + String.length b)).
  f_equal. exact IH.
Qed.

Lemma rev_app_append (a b : string) : String.rev_app a b = String.rev a +:+ b.
Proof.
  revert b. induction a as [|x a IH]; intros b; [reflexivity|].
  unfold String.rev. simpl. rewrite (IH (String x b)), (IH (String x "")).
  rewrite append_assoc. reflexivity.
Qed.

Lemma rev_cons (x : Ascii.ascii) (a : string) :
  String.rev (String x a) = String.rev a +:+ String x "".
Proof. unfold String.rev at 1. simpl. apply rev_app_append. Qed.

Lemma rev_append (a b : string) : String.rev (a +:+ b) = String.rev b +:+ String.rev a.
Proof.
  induction a as [|x a IH].
  - change ("" +:+ b) with b. rewrite append_empty_r. reflexivity.
  - change (String x a +:+ b) with (String x (a +:+ b)).
    rewrite !rev_cons, IH, append_assoc. reflexivity.
Qed.

Lemma rev_involutive (a : string) : String.rev (String.rev a) = a.
Proof.
  induction a as [|x a IH]; [reflexivity|].
  rewrite rev_cons, rev_append, IH. reflexivity.
Qed.

Lemma prefix_trans (a b c : string) :
  String.prefix a b = true → String.prefix b c = true → String.prefix a c = true.
Proof.
  intros Hab Hbc. apply prefix_split in Hab as [x ->]. apply prefix_split in Hbc as [y ->].
  rewrite append_assoc. apply prefix_append.
Qed.

Lemma take_drop (n : nat) (s : string) :
  first_chars n s +:+ JsString.drop n s = s.
Proof.
  revert s. induction n as [|n IH]; intros [|c s]; try reflexivity.
  change (String c (first_chars n s +:+ JsString.drop n s) = String c s).
  f_equal. apply IH.
Qed.

(** [strip] returns its argument without some of its first
    characters. *)
Lemma strip_drop (spaces : list string) (fuel : nat) :
  ∀ s, ∃ k, JsString.strip spaces fuel s = JsString.drop k s.
Proof.
  induction fuel as [|fuel IH]; intros s; [exists 0; destruct s; reflexivity|].
  simpl. destruct (List.find _ spaces) as [ws|]; [|exists 0; destruct s; reflexivity].
  destruct (IH (JsString.drop (String.length ws) s)) as [k ->].
  exists (String.length ws + k). generalize (String.length ws) as n.
  intros n. revert s. induction n as [|n IHn]; intros s; [reflexivity|].
  destruct s as [|c s]; [destruct k; reflexivity|]. apply IHn.
Qed.

(** What [trimEnd] returns begins its argument. *)
Lemma trimEnd_prefix (s : string) : String.prefix (JsString.trimEnd s) s = true.
Proof.
  unfold JsString.trimEnd.
  destruct (strip_drop (String.rev <$> JsString.white_space) (String.length s)
              (String.rev s)) as [k ->].
  rewrite <- (rev_involutive s) at 2.
  rewrite <- (take_drop k (String.rev s)) at 2.
  rewrite rev_append. apply prefix_append.
Qed.

Lemma white_space_not_empty : Forall (λ ws, ws ≠ "") JsString.white_space.
Proof.
  apply Forall_forall. intros ws Hin. vm_compute in Hin.
  repeat (apply elem_of_cons in Hin as [-> | Hin]; [discriminate|]).
  apply elem_of_nil in Hin. contradiction.
Qed.

Lemma trim_no_leading_space (s : string) : ¬ starts_with_space (JsString.trim s).
Proof.
  intros (ws & Hin & Hpre).
  assert (Hstart : String.prefix ws (JsString.trimStart s) = true).
  { eapply prefix_trans; [exact Hpre | apply trimEnd_prefix]. }
  pose proof (trimStart_done s) as Hnone.
  apply list_elem_of_In in Hin.
  eapply List.find_none in Hnone; [|exact Hin]. simpl in Hnone. congruence.
Qed.

Lemma trim_no_trailing_space (s : string) : ¬ ends_with_space (JsString.trim s).
Proof.
  intros (ws & Hin & Hpre). unfold JsString.trim, JsString.trimEnd in Hpre.
  rewrite rev_involutive in Hpre.
  assert (Hnone : List.find
            (λ ws', String.prefix ws'
               (JsString.strip (String.rev <$> JsString.white_space)
                  (String.length (JsString.trimStart s))
                  (String.rev (JsString.trimStart s))))
            (String.rev <$> JsString.white_space) = None).
  { apply strip_done.
    - apply Forall_fmap. eapply Forall_impl; [apply white_space_not_empty|].
      intros x Hx Hrev. apply Hx. rewrite <- (rev_involutive x), Hrev. reflexivity.
    - clear. generalize (JsString.trimStart s). intros t.
      rewrite <- (rev_involutive t) at 2. generalize (String.rev t). clear.
      intros t. induction t as [|c t IH]; [reflexivity|].
      rewrite rev_cons, append_length. simpl. lia. }
  eapply List.find_none in Hnone;
    [|apply list_elem_of_In, list_elem_of_fmap; exists ws; split; [reflexivity|exact Hin]].
  cbv beta in Hnone. congruence.
Qed.

Lemma not_starts_by_find (s : string) :
  List.find (λ ws, String.prefix ws s) JsString.white_space = None →
  ¬ starts_with_space s.
Proof.
  intros Hnone (ws & Hin & Hpre). apply list_elem_of_In in Hin.
  eapply List.find_none in Hnone; [|exact Hin]. cbv beta in Hnone. congruence.
Qed.

Lemma not_ends_by_find (s : string) :
  List.find (λ ws, String.prefix (String.rev ws) (String.rev s)) JsString.white_space
  = None →
  ¬ ends_with_space s.
Proof.
  intros Hnone (ws & Hin & Hpre). apply list_elem_of_In in Hin.
  eapply List.find_none in Hnone; [|exact Hin]. cbv beta in Hnone. congruence.
Qed.

Lemma occurrences_char_append (x : Ascii.ascii) (a b : string) :
  occurrences (String x "") (a +:+ b)
  = occurrences (String x "") a + occurrences (String x "") b.
Proof.
  induction a as [|c a IH]; [reflexivity|].
  change (String c a +:+ b) with (String c (a +:+ b)).
  cbn [occurrences String.prefix]. rewrite IH.
  destruct (Ascii.ascii_dec x c); [|reflexivity].
  destruct (a +:+ b), a; reflexivity.
Qed.

Lemma encodeURIComponent_cons (c : Ascii.ascii) (s : string) :
  JsString.encodeURIComponent (String c s)
  = encoded_byte c +:+ JsString.encodeURIComponent s.
Proof.
  unfold encoded_byte. cbn [JsString.encodeURIComponent].
  destruct (JsString.unreserved c); reflexivity.
Qed.

Lemma encoded_byte_no_delimiter (c : Ascii.ascii) :
  occurrences "&" (encoded_byte c) = 0
  ∧ occurrences "?" (encoded_byte c) = 0
  ∧ occurrences "=" (encoded_byte c) = 0
  ∧ occurrences "#" (encoded_byte c) = 0
  ∧ occurrences "/" (encoded_byte c) = 0.
Proof. destruct c as [[] [] [] [] [] [] [] []]; vm_compute; repeat split. Qed.

Lemma encodeURIComponent_no_delimiter (s : string) :
  occurrences "&" (JsString.encodeURIComponent s) = 0
  ∧ occurrences "?" (JsString.encodeURIComponent s) = 0
  ∧ occurrences "=" (JsString.encodeURIComponent s) = 0
  ∧ occurrences "#" (JsString.encodeURIComponent s) = 0
  ∧ occurrences "/" (JsString.encodeURIComponent s) = 0.
Proof.
  induction s as [|c s (IH1 & IH2 & IH3 & IH4 & IH5)]; [repeat split|].
  rewrite encodeURIComponent_cons.
  destruct (encoded_byte_no_delimiter c) as (H1 & H2 & H3 & H4 & H5).
  change "&" with (String (Ascii.ascii_of_nat 38) "") in *.
  change "?" with (String (Ascii.ascii_of_nat 63) "") in *.
  change "=" with (String (Ascii.ascii_of_nat 61) "") in *.
  change "#" with (String (Ascii.ascii_of_nat 35) "") in *.
  change "/" with (String (Ascii.ascii_of_nat 47) "") in *.
  rewrite !occurrences_char_append, H1, H2, H3, H4, H5, IH1, IH2, IH3, IH4, IH5.
  repeat split.
Qed.

Lemma encodeURIComponent_plain (s : string) :
  plain_id s → JsString.encodeURIComponent s = s.
Proof.
  unfold plain_id. induction s as [|c s IH]; [reflexivity|].
  simpl. intros H. apply Forall_cons in H as [Hc Hs].
  rewrite Hc, (IH Hs). reflexivity.
Qed.

(** Case analysis on every call that may throw. *)
Ltac by_outcome :=
  repeat match goal with
         | |- context [match ?o with Ok _ => _ | Throw _ => _ end] =>
             destruct o eqn:?; try discriminate
         end.

Section Script_coverage.

Variable NumberToString : Q → string.

Abbreviation toString := (Js.toString NumberToString).
Abbreviation is_observation := (observation_resource NumberToString).

(** X1: whatever [formatHumanName] returns is a name to show: never the
    empty string, and without white space at either end. *)
Theorem formatHumanName_never_blank (name : JsVal) (shown : string) :
  formatHumanName NumberToString name = Ok shown →
  shown ≠ "" ∧ ¬ starts_with_space shown ∧ ¬ ends_with_space shown.
Proof.
  assert (Hmarker : "(no name)" ≠ "" ∧ ¬ starts_with_space "(no name)"
                    ∧ ¬ ends_with_space "(no name)").
  { split; [discriminate|]. split.
    - apply not_starts_by_find. vm_compute. reflexivity.
    - apply not_ends_by_find. vm_compute. reflexivity. }
  unfold formatHumanName. destruct (negb (truthy name)); [intros [= <-]; exact Hmarker|].
  run. by_outcome. intros [= <-].
  destruct (String.eqb _ "") eqn:Hfull; [exact Hmarker|].
  apply String.eqb_neq in Hfull. split; [exact Hfull|].
  split; [apply trim_no_leading_space | apply trim_no_trailing_space].
Qed.

(** X2: the Patient Loader sends exactly one request, by identifier when
    it is given one and through the client's own patient read otherwise;
    with neither it sends nothing and shows "No patient context
    available.".  It never touches the status line, the table or the
    chart. *)
Theorem loadPatient_request_or_placeholder (client : Client) (patientId : option string)
    (w : World) :
  let w' := (loadPatient client patientId w).2 in
  loadPatient client patientId w = (Ok tt, w')
  ∧ status w' = status w
  ∧ lab_table_body w' = lab_table_body w
  ∧ lab_chart w' = lab_chart w
  ∧ ((∃ r, requests w' = requests w ++ [r]
           ∧ on_client r = client ∧ handlers r = PatientHandlers
           ∧ fetch r = (if truthy_text patientId
                        then ClientRequest
                               ("Patient/" +:+
                                JsString.encodeURIComponent (default "" patientId)) None
                        else PatientRead)
           ∧ (truthy_text patientId = false → can_read_patient client = true)
           ∧ patient_info w' = patient_info w)
     ∨ (requests w' = requests w
        ∧ truthy_text patientId = false ∧ can_read_patient client = false
        ∧ patient_info w' = "<p class='error'>No patient context available.</p>")).
Proof.
  cbv zeta. unfold loadPatient. run.
  destruct (truthy_text patientId) eqn:Hid; [|destruct (can_read_patient client) eqn:Hread];
    cbn [snd fst]; (split; [reflexivity|]); (split; [reflexivity|]);
    (split; [reflexivity|]); (split; [reflexivity|]).
  - left. eexists. repeat split. intros [=].
  - left. eexists. repeat split.
  - right. repeat split.
Qed.

(** X3: the Lab Series Loader uses the identifier it is given and falls
    back to the client's patient only without one.  With an identifier it
    sends one query, limited to three pages and flattened, and renders
    nothing yet; with none it sends nothing, notes it on the status line
    and shows the "No patient ID available." row and the placeholder
    chart.  It never touches the patient panel. *)
Theorem loadCholesterolLabs_query_or_placeholder (client : Client)
    (patientId : option string) (w : World) :
  let w' := (loadCholesterolLabs client patientId w).2 in
  let pid := if truthy_text patientId then patientId else context_patient_id client in
  loadCholesterolLabs client patientId w = (Ok tt, w')
  ∧ patient_info w' = patient_info w
  ∧ if truthy_text pid then
      requests w'
      = requests w ++
        [ {| on_client := client;
             fetch := ClientRequest (observation_query (default "" pid))
                        (Some {| pageLimit := 3; flat := true |});
             handlers := LabHandlers |} ]
      ∧ status w' = status w
      ∧ lab_table_body w' = lab_table_body w
      ∧ lab_chart w' = lab_chart w
    else
      requests w' = requests w
      ∧ status w' = status w +:+ " • No patient ID available for cholesterol query."
      ∧ lab_table_body w' = table_markup "<tr><td colspan='4'>No patient ID available.</td></tr>"
      ∧ lab_chart w' = Some no_data_chart.
Proof.
  cbv zeta. unfold loadCholesterolLabs. run.
  destruct (truthy_text (if truthy_text patientId then patientId
                         else context_patient_id client)) eqn:Hpid;
    cbn [negb]; cbv iota; repeat split.
Qed.

(** X4: no identifier can change the shape of a request.  The path the
    Patient Loader asks for keeps its single slash and gets no query or
    fragment, and the query of the Lab Series Loader keeps exactly its
    three parameters, whatever characters the identifier holds.  An
    identifier of unreserved characters goes out as it is. *)
Theorem request_urls_keep_their_shape (client : Client) (pid : string) (w : World) :
  pid ≠ "" →
  ∃ path query,
    requests (loadPatient client (Some pid) w).2
    = requests w ++ [ {| on_client := client; fetch := ClientRequest path None;
                         handlers := PatientHandlers |} ]
    ∧ requests (loadCholesterolLabs client (Some pid) w).2
      = requests w ++ [ {| on_client := client;
                           fetch := ClientRequest query
                                      (Some {| pageLimit := 3; flat := true |});
                           handlers := LabHandlers |} ]
    ∧ (occurrences "/" path = 1 ∧ occurrences "?" path = 0
       ∧ occurrences "&" path = 0 ∧ occurrences "#" path = 0)
    ∧ (occurrences "?" query = 1 ∧ occurrences "&" query = 2
       ∧ occurrences "=" query = 3 ∧ occurrences "#" query = 0)
    ∧ (plain_id pid →
       path = "Patient/" +:+ pid
       ∧ query = "Observation?patient=" +:+ pid
                 +:+ "&code=http%3A%2F%2Floinc.org%7C2093-3&_sort=date").
Proof.
  intros Hpid.
  assert (Htruthy : truthy_text (Some pid) = true).
  { destruct pid; [congruence | reflexivity]. }
  exists ("Patient/" +:+ JsString.encodeURIComponent pid), (observation_query pid).
  split.
  { unfold loadPatient. run. rewrite Htruthy. reflexivity. }
  split.
  { unfold loadCholesterolLabs. run. rewrite Htruthy. cbn [negb]. rewrite Htruthy.
    reflexivity. }
  unfold observation_query.
  destruct (encodeURIComponent_no_delimiter pid) as (H1 & H2 & H3 & H4 & H5).
  rewrite encode_loinc_code.
  change "&" with (String (Ascii.ascii_of_nat 38) "") in *.
  change "?" with (String (Ascii.ascii_of_nat 63) "") in *.
  change "=" with (String (Ascii.ascii_of_nat 61) "") in *.
  change "#" with (String (Ascii.ascii_of_nat 35) "") in *.
  change "/" with (String (Ascii.ascii_of_nat 47) "") in *.
  rewrite !occurrences_char_append, H1, H2, H3, H4, H5.
  split; [repeat split|]. split; [repeat split|].
  intros Hplain. rewrite (encodeURIComponent_plain pid Hplain). split; reflexivity.
Qed.

Lemma bind_returns {A B} (m : M A) (f : A → M B) (w w1 : World) (a : A) :
  m w = (Ok a, w1) → (m ≫= f) w = f a w1.
Proof. intros H. unfold mbind, M_bind. rewrite H. reflexivity. Qed.

Lemma bind_throws {A B} (m : M A) (f : A → M B) (w w1 : World) (e : Failure) :
  m w = (Throw e, w1) → (m ≫= f) w = (Throw e, w1).
Proof. intros H. unfold mbind, M_bind. rewrite H. reflexivity. Qed.

Lemma loadPatient_effects (client : Client) (patientId : option string) (w : World) :
  loadPatient client patientId w = (Ok tt, (loadPatient client patientId w).2)
  ∧ trace (loadPatient client patientId w).2 = trace w ++ [LoadPatient client patientId]
  ∧ ∃ sent, requests (loadPatient client patientId w).2 = requests w ++ sent
            ∧ length sent ≤ 1.
Proof.
  unfold loadPatient. run.
  destruct (truthy_text patientId); [|destruct (can_read_patient client)];
    (split; [reflexivity|]); (split; [reflexivity|]).
  - eexists. split; [reflexivity | simpl; lia].
  - eexists. split; [reflexivity | simpl; lia].
  - exists []. split; [simpl; rewrite app_nil_r; reflexivity | simpl; lia].
Qed.

Lemma loadCholesterolLabs_effects (client : Client) (patientId : option string)
    (w : World) :
  loadCholesterolLabs client patientId w
  = (Ok tt, (loadCholesterolLabs client patientId w).2)
  ∧ (∃ calls, trace (loadCholesterolLabs client patientId w).2
              = trace w ++ LoadCholesterolLabs client patientId :: calls
              ∧ loader_calls calls = [])
  ∧ ∃ sent, requests (loadCholesterolLabs client patientId w).2 = requests w ++ sent
            ∧ length sent ≤ 1.
Proof.
  unfold loadCholesterolLabs. run.
  destruct (truthy_text (if truthy_text patientId then patientId
                         else context_patient_id client));
    cbn [negb]; cbv iota; (split; [reflexivity|]).
  - split; [exists []; split; reflexivity|].
    eexists. split; [reflexivity | simpl; lia].
  - split; [exists [RenderChart [] []]; split; [|reflexivity]|].
    + simpl. rewrite <- app_assoc. reflexivity.
    + exists []. split; [simpl; rewrite app_nil_r; reflexivity | simpl; lia].
Qed.

Lemma both_loaders_effects (client : Client) (patientId : option string) (w0 : World) :
  let w1 := (loadCholesterolLabs client patientId
               (loadPatient client patientId w0).2).2 in
  (loadPatient client patientId;; loadCholesterolLabs client patientId) w0 = (Ok tt, w1)
  ∧ (∃ calls, trace w1 = trace w0 ++ calls
       ∧ loader_calls calls = [LoadPatient client patientId;
                               LoadCholesterolLabs client patientId])
  ∧ ∃ sent, requests w1 = requests w0 ++ sent ∧ length sent ≤ 2.
Proof.
  cbv zeta.
  destruct (loadPatient_effects client patientId w0) as (Hp & Hpt & sent & Hps & Hpl).
  destruct (loadCholesterolLabs_effects client patientId
              (loadPatient client patientId w0).2)
    as (Hl & (calls & Hlt & Hcalls) & sent' & Hls & Hll).
  split; [rewrite (bind_returns _ _ _ _ _ Hp); exact Hl|]. split.
  - exists (LoadPatient client patientId :: LoadCholesterolLabs client patientId :: calls).
    split; [rewrite Hlt, Hpt, <- app_assoc; reflexivity|].
    simpl. rewrite Hcalls. reflexivity.
  - exists (sent ++ sent'). split; [rewrite Hls, Hps, app_assoc; reflexivity|].
    rewrite length_app. lia.
Qed.

(** X5: every launch ends without an exception, and it calls both loaders,
    the Patient Loader first and both with the same client and patient
    identifier, or neither of them; it sends two requests at most. *)
Theorem launch_calls_both_loaders_or_neither (launch : Settled Client) (w : World) :
  let w' := (entry_point launch w).2 in
  entry_point launch w = (Ok tt, w')
  ∧ (∃ calls, trace w' = trace w ++ calls
       ∧ (loader_calls calls = []
          ∨ ∃ client patientId,
              loader_calls calls = [LoadPatient client patientId;
                                    LoadCholesterolLabs client patientId]))
  ∧ ∃ sent, requests w' = requests w ++ sent ∧ length sent ≤ 2.
Proof.
  cbv zeta. unfold entry_point, then_catch. destruct launch as [client|error].
  - unfold ready_then.
    set (w0 := set_status ("Connected to FHIR server (SMART): " +:+ state_serverUrl client) w).
    destruct (both_loaders_effects client (context_patient_id client) w0)
      as (Hrun & (calls & Htrace & Hcalls) & sent & Hsent & Hlen).
    assert (Hthen : (modify (set_status ("Connected to FHIR server (SMART): "
                                        +:+ state_serverUrl client));;
                     loadPatient client (context_patient_id client);;
                     loadCholesterolLabs client (context_patient_id client)) w
                    = (Ok tt, (loadCholesterolLabs client (context_patient_id client)
                                 (loadPatient client (context_patient_id client) w0).2).2)).
    { rewrite (bind_returns _ _ w w0 tt) by reflexivity. exact Hrun. }
    rewrite Hthen. cbn [snd]. split; [reflexivity|]. split.
    + exists calls. split; [exact Htrace|]. right. eauto.
    + exists sent. split; [exact Hsent | exact Hlen].
  - unfold ready_catch.
    set (w0 := log_error "SMART launch error:" error w).
    rewrite (bind_returns _ _ w w0 tt) by reflexivity.
    destruct (JsString.includes (description error) "No 'state' parameter").
    + set (w1 := set_status
             "No SMART launch detected – using sandbox dev mode with a test patient." w0).
      rewrite (bind_returns _ _ w0 w1 tt) by reflexivity.
      destruct (both_loaders_effects (FHIR_client DEV_SERVER_URL) (Some DEV_PATIENT_ID) w1)
        as (Hrun & (calls & Htrace & Hcalls) & sent & Hsent & Hlen).
      cbv zeta. rewrite Hrun. cbn [snd]. split; [reflexivity|]. split.
      * exists calls. split; [exact Htrace|]. right. eauto.
      * exists sent. split; [exact Hsent | exact Hlen].
    + cbn [snd]. split; [reflexivity|]. split.
      * exists []. split; [simpl; rewrite app_nil_r; reflexivity | left; reflexivity].
      * exists []. split; [simpl; rewrite app_nil_r; reflexivity | simpl; lia].
Qed.

Lemma context_patient_id_truthy (client : Client) :
  truthy_text (context_patient_id client)
  = match context_patient_id client with Some _ => true | None => false end.
Proof.
  unfold context_patient_id. destruct (patient client) as [ctx|]; [|reflexivity].
  destruct (truthy_text (patient_id ctx)) eqn:H; [|reflexivity].
  rewrite H. destruct (patient_id ctx); [reflexivity | discriminate].
Qed.

(** X6: after a successful launch the status line names the server.  With
    a patient in the launch context the page asks for that patient and for
    the patient's observations and renders nothing yet.  With none, the
    patient is read through the client when it can, and the lab region at
    once shows that no patient identifier is available, with the note
    appended to the status line. *)
Theorem successful_launch (client : Client) (w : World) :
  let w' := (entry_point (Resolved client) w).2 in
  let connected := "Connected to FHIR server (SMART): " +:+ state_serverUrl client in
  match context_patient_id client with
  | Some pid =>
      status w' = connected
      ∧ requests w'
        = requests w ++
          [ {| on_client := client;
               fetch := ClientRequest ("Patient/" +:+ JsString.encodeURIComponent pid) None;
               handlers := PatientHandlers |};
            {| on_client := client;
               fetch := ClientRequest (observation_query pid)
                          (Some {| pageLimit := 3; flat := true |});
               handlers := LabHandlers |} ]
      ∧ patient_info w' = patient_info w
      ∧ lab_table_body w' = lab_table_body w
      ∧ lab_chart w' = lab_chart w
  | None =>
      status w' = connected +:+ " • No patient ID available for cholesterol query."
      ∧ lab_table_body w' = table_markup "<tr><td colspan='4'>No patient ID available.</td></tr>"
      ∧ lab_chart w' = Some no_data_chart
      ∧ if can_read_patient client then
          requests w'
          = requests w ++ [ {| on_client := client; fetch := PatientRead;
                               handlers := PatientHandlers |} ]
          ∧ patient_info w' = patient_info w
        else
          requests w' = requests w
          ∧ patient_info w' = "<p class='error'>No patient context available.</p>"
  end.
Proof.
  cbv zeta. unfold entry_point, then_catch, ready_then, loadPatient, loadCholesterolLabs.
  pose proof (context_patient_id_truthy client) as Htruthy.
  destruct (context_patient_id client) as [pid|]; run; rewrite !Htruthy;
    cbn [negb]; cbv iota.
  - cbn [snd status requests patient_info lab_table_body lab_chart add_request add_call
         set_status default]. rewrite <- app_assoc. repeat split.
  - destruct (can_read_patient client); repeat split.
Qed.

Lemma only_table_differs_rows (rows : list Element) (t : TableBody) (w : World) :
  only_table_differs w (append_rows rows (set_lab_table_body t w)).
Proof. repeat split. Qed.

(** How the handlers of the observation query leave the page: the empty
    rendering, the failure rendering after a rejection or a throw, or the
    rows and the chart of a non-empty array. *)
Lemma settle_labs_cases (answer : Settled JsVal) (w : World) :
  let w' := (settle NumberToString LabHandlers answer w).2 in
  settle NumberToString LabHandlers answer w = (Ok tt, w')
  ∧ (w' = (no_results w).2
     ∨ (∃ e w1, lab_failure NumberToString answer w e ∧ only_table_differs w w1
                ∧ w' = (labs_catch e w1).2)
     ∨ (∃ obs l rows ds vs,
          answer = Resolved (JArr (obs :: l))
          ∧ length rows = S (length l) ∧ Forall is_tr rows
          ∧ length ds = length vs
          ∧ w' = (renderChart ds vs
                    (append_rows rows
                       (set_lab_table_body {| markup := ""; appended := [] |} w))).2)).
Proof.
  cbv zeta. unfold settle, then_catch. destruct answer as [observations|e].
  - destruct (labs_then_cases NumberToString observations w)
      as [Hempty | [[e Hthrow] | (obs & l & ->)]].
    + rewrite Hempty. split; [reflexivity|]. left. reflexivity.
    + rewrite Hthrow. split; [reflexivity|]. right. left.
      exists e, (set_lab_table_body {| markup := ""; appended := [] |} w).
      split; [right; eauto|]. split; [repeat split | reflexivity].
    + pose proof (labs_then_nonempty NumberToString obs l w) as Hthen.
      destruct (forEach_elements _ _ _ _) as [[[ds vs]|e] w1] eqn:Hloop;
        apply forEach_elements_outcome in Hloop as (rows & -> & Htr & Hr);
        rewrite Hthen.
      * destruct Hr as (Hlen & dsn & vsn & -> & -> & Hpair & _).
        rewrite renderChart_returns. split; [reflexivity|]. right. right.
        exists obs, l, rows, dsn, vsn. repeat split; assumption.
      * split; [reflexivity|]. right. left. eexists e, _.
        split; [right; eauto|]. split; [apply only_table_differs_rows | reflexivity].
  - split; [reflexivity|]. right. left. exists e, w.
    split; [left; reflexivity|]. split; [repeat split | reflexivity].
Qed.

(** X7: when the observation query is settled the table is never left
    empty or half filled: it holds the "No cholesterol results." row, or
    the "Error loading labs." row, or one row for every observation of the
    array. *)
Theorem lab_table_settled (answer : Settled JsVal) (w : World) :
  let w' := (settle NumberToString LabHandlers answer w).2 in
  (lab_table_body w' = table_markup "<tr><td colspan='4'>No cholesterol results.</td></tr>"
   ∨ lab_table_body w' = table_markup "<tr><td colspan='4'>Error loading labs.</td></tr>"
   ∨ ∃ obs l rows,
       answer = Resolved (JArr (obs :: l))
       ∧ lab_table_body w' = {| markup := ""; appended := rows |}
       ∧ length rows = S (length l) ∧ Forall is_tr rows)
  ∧ 1 ≤ table_rows w'.
Proof.
  cbv zeta.
  destruct (settle_labs_cases answer w)
    as (_ & [-> | [(e & w1 & _ & _ & ->) | (obs & l & rows & ds & vs & -> & Hlen & Htr & _ & ->)]]).
  - split; [left; reflexivity | unfold table_rows; simpl; lia].
  - split; [right; left; reflexivity | unfold table_rows; simpl; lia].
  - split.
    + right. right. exists obs, l, rows. split; [reflexivity|].
      split; [|split; assumption].
      unfold renderChart. run. destruct (bool_decide _ || bool_decide _); reflexivity.
    + rewrite renderChart_rows by assumption. lia.
Qed.

(** X8: when the observation query is rejected, or its handler throws on
    what it got, the status line gets the error note with the failure's
    message or else its description, the table is the single "Error
    loading labs." row, whatever rows were there, the chart is the
    placeholder and the failure is logged. *)
Theorem lab_failure_rendering (answer : Settled JsVal) (w : World) (e : Failure) :
  lab_failure NumberToString answer w e →
  let w' := (settle NumberToString LabHandlers answer w).2 in
  status w' = status w +:+ " • Error loading cholesterol labs: "
                       +:+ message_or_description e
  ∧ lab_table_body w' = table_markup "<tr><td colspan='4'>Error loading labs.</td></tr>"
  ∧ table_rows w' = 1
  ∧ lab_chart w' = Some no_data_chart
  ∧ console w' = console w ++ [("Error loading cholesterol labs:", e)].
Proof.
  intros Hfail. cbv zeta.
  assert (Hcatch : ∀ w1, only_table_differs w w1 →
    status (labs_catch e w1).2
    = status w +:+ " • Error loading cholesterol labs: " +:+ message_or_description e
    ∧ lab_table_body (labs_catch e w1).2
      = table_markup "<tr><td colspan='4'>Error loading labs.</td></tr>"
    ∧ table_rows (labs_catch e w1).2 = 1
    ∧ lab_chart (labs_catch e w1).2 = Some no_data_chart
    ∧ console (labs_catch e w1).2 = console w ++ [("Error loading cholesterol labs:", e)]).
  { intros w1 (Hs & _ & _ & Hc & _ & _). unfold labs_catch. run. simpl.
    rewrite Hs, Hc. repeat split. }
  unfold settle, then_catch. destruct Hfail as [-> | (v & w1 & -> & Hthrow)].
  - apply Hcatch. repeat split.
  - rewrite Hthrow. apply Hcatch.
    destruct (labs_then_cases NumberToString v w) as [Hempty | [[e' He'] | (obs & l & ->)]].
    + rewrite Hempty in Hthrow. discriminate.
    + rewrite He' in Hthrow. injection Hthrow as _ <-. repeat split.
    + rewrite labs_then_nonempty in Hthrow.
      destruct (forEach_elements _ _ _ _) as [[[ds vs]|e'] w2] eqn:Hloop;
        apply forEach_elements_outcome in Hloop as (rows & -> & _ & _).
      * rewrite renderChart_returns in Hthrow. discriminate.
      * injection Hthrow as _ <-. apply only_table_differs_rows.
Qed.

(** X9: the handlers of the observation query always end without an
    exception; they only append to the status line, and they touch
    neither the patient panel nor the requests. *)
Theorem lab_handlers_keep_to_their_region (answer : Settled JsVal) (w : World) :
  let w' := (settle NumberToString LabHandlers answer w).2 in
  settle NumberToString LabHandlers answer w = (Ok tt, w')
  ∧ (∃ note, status w' = status w +:+ note)
  ∧ patient_info w' = patient_info w
  ∧ requests w' = requests w.
Proof.
  cbv zeta.
  destruct (settle_labs_cases answer w) as (Hok & Hcases).
  split; [exact Hok|]. clear Hok.
  destruct Hcases as [-> | [(e & w1 & _ & (Hs & Hp & _ & _ & Hr & _) & ->)
                           | (obs & l & rows & ds & vs & -> & _ & _ & _ & ->)]].
  - split; [eexists; reflexivity | split; reflexivity].
  - unfold labs_catch. run. simpl. rewrite Hs, Hp, Hr.
    split; [eexists; reflexivity | split; reflexivity].
  - unfold renderChart. run. destruct (bool_decide _ || bool_decide _); simpl;
      (split; [exists ""; rewrite append_empty_r; reflexivity | split; reflexivity]).
Qed.

Lemma patient_then_cases (v : JsVal) (w : World) :
  (∃ e, patient_then NumberToString v w = (Throw e, w))
  ∨ ∃ name gender dob id,
      patient_then NumberToString v w
      = (Ok tt, set_patient_info (patient_template name gender dob id) w).
Proof.
  unfold patient_then. run.
  destruct (patient_name NumberToString v); [|left; eauto].
  destruct (get v "gender"); [|left; eauto].
  destruct (get v "birthDate"); [|left; eauto].
  destruct (get v "id"); [|left; eauto].
  destruct (capitalize _); [|left; eauto].
  destruct (toString (Js.or a1 _)); [|left; eauto].
  destruct (toString (Js.or a2 _)); [|left; eauto].
  right. eauto.
Qed.

(** X10: the handlers of the patient request always end without an
    exception and leave the panel filled, with the patient's details or
    with "Could not load patient details."; they touch neither the status
    line, the table, the chart nor the requests. *)
Theorem patient_handlers_keep_to_their_region (answer : Settled JsVal) (w : World) :
  let w' := (settle NumberToString PatientHandlers answer w).2 in
  settle NumberToString PatientHandlers answer w = (Ok tt, w')
  ∧ (patient_info w' = "<p class='error'>Could not load patient details.</p>"
     ∨ ∃ name gender dob id, patient_info w' = patient_template name gender dob id)
  ∧ status w' = status w
  ∧ lab_table_body w' = lab_table_body w
  ∧ lab_chart w' = lab_chart w
  ∧ requests w' = requests w
  ∧ trace w' = trace w.
Proof.
  cbv zeta. unfold settle, then_catch. destruct answer as [v|e].
  - destruct (patient_then_cases v w) as [[e ->] | (n & g & d & i & ->)].
    + split; [reflexivity|]. split; [left; reflexivity | repeat split].
    + split; [reflexivity|]. split; [right; exists n, g, d, i; reflexivity | repeat split].
  - split; [reflexivity|]. split; [left; reflexivity | repeat split].
Qed.

(** X11: when the patient request is rejected, or its handler throws on
    what it got, the panel shows "Could not load patient details." and
    the failure is logged. *)
Theorem patient_failure_rendering (answer : Settled JsVal) (w : World) (e : Failure) :
  patient_failure NumberToString answer w e →
  let w' := (settle NumberToString PatientHandlers answer w).2 in
  patient_info w' = "<p class='error'>Could not load patient details.</p>"
  ∧ console w' = console w ++ [("Error loading patient:", e)].
Proof.
  intros Hfail. cbv zeta. unfold settle, then_catch.
  destruct Hfail as [-> | (v & w1 & -> & Hthrow)]; [split; reflexivity|].
  destruct (patient_then_cases v w) as [[e' He'] | (n & g & d & i & Hok)].
  - rewrite He' in *. injection Hthrow as <- <-. split; reflexivity.
  - rewrite Hok in Hthrow. discriminate.
Qed.

Lemma patient_name_first (patient : gmap string JsVal) name :
  first_name patient name →
  patient_name NumberToString (JObj patient) = Ok (display_name name).
Proof.
  intros Hname. unfold patient_name. simpl.
  destruct Hname as [-> | -> | nm others given family -> Hg Hf]; simpl;
    try reflexivity.
  apply formatHumanName_object; assumption.
Qed.

Lemma default_text (v : option JsVal) (fallback : string) :
  optional_string v = true →
  Js.or (default JUndefined v) (JStr fallback) = JStr (text_or v fallback).
Proof.
  intros Hv. destruct v as [[| | | |[|c s]| |]|]; try discriminate; reflexivity.
Qed.

(** X12: a Patient resource fills the panel with the name of its first
    listed name, the gender with a capital initial, the birth date and the
    identifier; a missing gender shows as "Unknown", a missing birth date
    as "unknown" and a missing identifier as "(no id)". *)
Theorem patient_panel (patient : gmap string JsVal) name (w : World) :
  first_name patient name →
  is_Patient patient →
  settle NumberToString PatientHandlers (Resolved (JObj patient)) w
  = (Ok tt,
     set_patient_info
       (patient_template (display_name name)
          (capitalized (text_or (patient !! "gender") "unknown"))
          (text_or (patient !! "birthDate") "unknown")
          (text_or (patient !! "id") "(no id)"))
       w).
Proof.
  intros Hname (Hg & _ & Hb & Hi).
  unfold settle, then_catch, patient_then. run.
  rewrite (patient_name_first patient name Hname). cbn [get].
  rewrite !default_text by assumption.
  assert (Hcap : capitalize (JStr (text_or (patient !! "gender") "unknown"))
                 = Ok (capitalized (text_or (patient !! "gender") "unknown"))).
  { destruct (patient !! "gender") as [[| | | |[|c s]| |]|]; reflexivity. }
  rewrite Hcap. reflexivity.
Qed.

Lemma callback_row (obs : JsVal) ds vs (w : World) :
  is_observation obs →
  forEach_callback NumberToString obs (ds, vs) w
  = (Ok (if charted obs
         then (ds ++ [observation_date obs], vs ++ [quantity_value obs])
         else (ds, vs)),
     append_rows [observation_row NumberToString obs] w).
Proof.
  destruct obs as [| | | | | |m]; try discriminate.
  unfold observation_resource, is_Observation.
  intros H. apply andb_prop in H as [H Hq]. apply andb_prop in H as [H Hs].
  apply andb_prop in H as [He Hi].
  unfold forEach_callback. run.
  rewrite (getObservationDate_object m He Hi).
  change (extracted_date _ _) with (observation_date (JObj m)).
  rewrite date_cell_same, has_date_observation_date.
  unfold observation_row, observation_status, observation_unit, value_text.
  unfold charted, numeric_value, quantity_value. cbn [get].
  rewrite (default_text (m !! "status") "" Hs). cbn [Js.toString].
  destruct (m !! "valueQuantity") as [[| | | | | |q]|] eqn:Hvq; try discriminate Hq.
  - simpl. rewrite !lookup_empty. simpl. rewrite andb_false_r. reflexivity.
  - simpl in Hq. apply andb_prop in Hq as [Hq Hc]. apply andb_prop in Hq as [Hv Hu].
    unfold printable in Hv. simpl.
    set (v := default JUndefined (q !! "value")) in *.
    destruct (toString v) as [vc|] eqn:Hvc; [|discriminate].
    assert (Hunit : (if truthy (default JUndefined (q !! "unit"))
                     then Ok (default JUndefined (q !! "unit"))
                     else Ok (Js.or (default JUndefined (q !! "code")) (JStr "")))
                    = Ok (JStr (text_or (q !! "unit") (text_or (q !! "code") "")))).
    { destruct (q !! "unit") as [[| | | |[|c s]| |]|]; try discriminate Hu;
        simpl; try reflexivity;
        destruct (q !! "code") as [[| | | |[|c' s']| |]|]; try discriminate Hc;
        reflexivity. }
    rewrite Hunit. cbn [Js.toString]. rewrite typeof_number.
    destruct (not_nullish v); reflexivity.
  - simpl. rewrite !lookup_empty. simpl. rewrite andb_false_r. reflexivity.
Qed.

Lemma forEach_elements_rows l : ∀ ds vs w,
  Forall is_observation l →
  forEach_elements NumberToString l (ds, vs) w
  = (Ok (ds ++ (observation_date <$> List.filter charted l),
         vs ++ (quantity_value <$> List.filter charted l)),
     append_rows (observation_row NumberToString <$> l) w).
Proof.
  induction l as [|obs l IH]; intros ds vs w Hl.
  - simpl. rewrite !app_nil_r, append_rows_nil. reflexivity.
  - inversion Hl as [|? ? Hobs Hl']; subst.
    rewrite forEach_elements_cons, (callback_row obs ds vs w Hobs).
    simpl List.filter. destruct (charted obs); rewrite (IH _ _ _ Hl'), append_rows_app;
      simpl; rewrite <- ?app_assoc; reflexivity.
Qed.

(** X13: a non-empty sequence of Observation resources fills the table
    with one row for each observation, in the order of the sequence; the
    row shows the date, the value, the display unit or else the coded
    unit, and the status, a missing one as an empty cell. *)
Theorem table_rows_follow_observations (l : list JsVal) (w : World) :
  l ≠ [] →
  Forall is_observation l →
  ∃ w', settle NumberToString LabHandlers (Resolved (JArr l)) w = (Ok tt, w')
    ∧ lab_table_body w'
      = {| markup := ""; appended := observation_row NumberToString <$> l |}.
Proof.
  intros Hne Hl. destruct l as [|obs l]; [congruence|].
  unfold settle, then_catch. rewrite labs_then_nonempty.
  rewrite (forEach_elements_rows (obs :: l) [] [] _ Hl).
  rewrite renderChart_returns. eexists. split; [reflexivity|].
  unfold renderChart. run. destruct (bool_decide _ || bool_decide _); reflexivity.
Qed.

Lemma charted_date_not_empty (obs : JsVal) :
  charted obs = true → observation_date obs ≠ "".
Proof.
  unfold charted. intros H. apply andb_prop in H as [Hd _].
  destruct obs as [| | | | | |m]; try discriminate.
  rewrite <- has_date_observation_date in Hd.
  intros Hempty. rewrite Hempty in Hd. discriminate.
Qed.

(** X14: for a sequence of Observation resources the line chart has, in
    the order of the sequence, the date of every observation with a date
    and a numeric value as a category and that observation's value as the
    point above it; no label is empty.  When no observation has both, the
    placeholder chart is drawn, rows or not. *)
Theorem chart_pairs_dates_with_values (l : list JsVal) (w : World) :
  Forall is_observation l →
  let charted_ones := List.filter charted l in
  ∃ w', settle NumberToString LabHandlers (Resolved (JArr l)) w = (Ok tt, w')
    ∧ lab_chart w'
      = Some (match charted_ones with
              | [] => no_data_chart
              | _ => line_chart (observation_date <$> charted_ones)
                                (quantity_value <$> charted_ones)
              end)
    ∧ Forall (λ obs, observation_date obs ≠ "") charted_ones.
Proof.
  intros Hl. cbv zeta.
  assert (Hdates : Forall (λ obs, observation_date obs ≠ "") (List.filter charted l)).
  { apply Forall_forall. intros obs Hin.
    apply list_elem_of_In, List.filter_In in Hin as [_ Hc].
    apply charted_date_not_empty. exact Hc. }
  unfold settle, then_catch. destruct l as [|obs l].
  - eexists. split; [reflexivity|]. split; [reflexivity | exact Hdates].
  - rewrite labs_then_nonempty.
    rewrite (forEach_elements_rows (obs :: l) [] [] _ Hl).
    rewrite renderChart_returns. eexists. split; [reflexivity|].
    split; [|exact Hdates].
    unfold renderChart. run. simpl app.
    destruct (List.filter charted (obs :: l)); reflexivity.
Qed.

(** X15: [capitalize] gives the empty string for a missing or empty text
    and throws on a value that is truthy and no string.  On a string with
    an ASCII initial it changes nothing but the first character, keeps the
    length, and capitalizing again changes nothing. *)
Theorem capitalize_first_letter_only (s : string) :
  ascii_initial s →
  capitalize (JStr s) = Ok (capitalized s)
  ∧ String.length (capitalized s) = String.length s
  ∧ JsString.drop 1 (capitalized s) = JsString.drop 1 s
  ∧ capitalize (JStr (capitalized s)) = Ok (capitalized s)
  ∧ (∀ v, truthy v = false → capitalize v = Ok "")
  ∧ (∀ v, truthy v = true → (∀ t, v ≠ JStr t) → ∃ e, capitalize v = Throw e).
Proof.
  intros _. split; [destruct s; reflexivity|]. split; [destruct s; reflexivity|].
  split; [destruct s; reflexivity|]. split.
  - destruct s as [|c s]; [reflexivity|]. unfold capitalize, capitalized. simpl.
    f_equal. f_equal. unfold JsString.toUpperCase_ascii.
    destruct ((97 <=? Ascii.nat_of_ascii c) && (Ascii.nat_of_ascii c <=? 122)) eqn:Hc;
      [|rewrite Hc; reflexivity].
    apply andb_prop in Hc as [Hlo Hhi].
    apply Nat.leb_le in Hlo. apply Nat.leb_le in Hhi.
    rewrite Ascii.nat_ascii_embedding by lia.
    destruct (97 <=? Ascii.nat_of_ascii c - 32) eqn:Hlow; [|reflexivity].
    apply Nat.leb_le in Hlow. lia.
  - split.
    + intros v Hv. unfold capitalize. rewrite Hv. reflexivity.
    + intros v Hv Hnot. unfold capitalize. rewrite Hv. simpl.
      destruct v as [| | | |[|c t]| |]; try (eexists; reflexivity).
      exfalso. apply (Hnot (String c t)). reflexivity.
Qed.

(** X16: in the earlier script the dev-mode fallback stops short.  The
    object assigned to [client.patient] has no [read], so [loadPatient]
    throws inside the [catch] handler: the status line announces dev mode,
    and no request is ever sent, for the patient or for the
    observations. *)
Theorem earlier_dev_mode_sends_nothing (error : Failure) (w : World) :
  JsString.includes (description error) "No 'state' parameter" = true →
  ∃ e w',
    Earlier.entry_point (Rejected error) w = (Throw e, w')
    ∧ e = TypeError "client.patient.read is not a function"
    ∧ requests w' = requests w
    ∧ status w' = "No SMART launch detected – using sandbox dev mode with a test patient."
    ∧ patient_info w' = patient_info w
    ∧ lab_table_body w' = lab_table_body w
    ∧ lab_chart w' = lab_chart w.
Proof.
  intros Hphrase. unfold Earlier.entry_point, then_catch, Earlier.ready_catch. run.
  rewrite Hphrase. eexists _, _. split; [reflexivity|]. repeat split.
Qed.

Lemma getObservationDate_short (obs : JsVal) (date : string) :
  getObservationDate obs = Ok date → String.length date ≤ 10.
Proof.
  assert (Hsub : ∀ v d, call_substring v 0 10 = Ok d → String.length d ≤ 10).
  { intros v d. destruct v; try discriminate. intros [= <-].
    rewrite substring_first_chars, first_chars_length. lia. }
  unfold getObservationDate. run.
  destruct (get obs "effectiveDateTime") as [eff|]; [|discriminate].
  destruct (truthy eff); [apply Hsub|].
  destruct (get obs "issued") as [iss|]; [|discriminate].
  destruct (truthy iss); [apply Hsub|]. intros [= <-]. simpl. lia.
Qed.

Lemma callback_pushes obs ds vs ds' vs' w w' :
  forEach_callback NumberToString obs (ds, vs) w = (Ok (ds', vs'), w') →
  (ds' = ds ∧ vs' = vs)
  ∨ ∃ d v, ds' = ds ++ [d] ∧ vs' = vs ++ [v] ∧ is_date_label d ∧ is_number v.
Proof.
  unfold forEach_callback. run.
  destruct (getObservationDate obs) as [date|] eqn:Hdate; [|discriminate].
  apply getObservationDate_short in Hdate.
  by_outcome. intros [= Harrays _].
  destruct (negb (String.eqb date "")) eqn:Hne; cbn [andb] in Harrays;
    [|injection Harrays as <- <-; left; split; reflexivity].
  rewrite typeof_number in Harrays.
  match type of Harrays with
  | context [match ?v with JNum _ => _ | _ => _ end] => destruct v eqn:Hv
  end; injection Harrays as <- <-; try (left; split; reflexivity).
  right. eexists _, _. split; [reflexivity|]. split; [reflexivity|].
  split; [|eexists; reflexivity].
  split; [|exact Hdate]. apply negb_true_iff, String.eqb_neq in Hne. exact Hne.
Qed.

Lemma forEach_elements_pushes l : ∀ ds vs ds' vs' w w',
  forEach_elements NumberToString l (ds, vs) w = (Ok (ds', vs'), w') →
  Forall is_date_label ds → Forall is_number vs →
  Forall is_date_label ds' ∧ Forall is_number vs'.
Proof.
  induction l as [|obs l IH]; intros ds vs ds' vs' w w'.
  - simpl. intros [= <- <- _]. auto.
  - rewrite forEach_elements_cons.
    destruct (forEach_callback _ obs (ds, vs) w) as [[[ds1 vs1]|e] w1] eqn:Hcb;
      [|discriminate].
    apply callback_pushes in Hcb. intros Hrest Hds Hvs.
    destruct Hcb as [[-> ->] | (d & v & -> & -> & Hd & Hv)].
    + apply (IH _ _ _ _ _ _ Hrest); assumption.
    + apply (IH _ _ _ _ _ _ Hrest); apply Forall_app; split; try assumption;
        apply Forall_singleton; assumption.
Qed.

(** X17: whatever the server sends, a chart that has a series has only
    numbers in it, and its category labels are dates: not empty and ten
    characters at most. *)
Theorem chart_holds_numbers_only (answer : Settled JsVal) (w : World) (c : ChartOptions) :
  lab_chart (settle NumberToString LabHandlers answer w).2 = Some c →
  Forall (λ s, Forall is_number (data s)) (series c)
  ∧ Forall is_date_label (xAxis_categories c).
Proof.
  destruct (settle_labs_cases answer w)
    as (_ & [-> | [(e & w1 & _ & _ & ->)
                  | (obs & l & rows & ds & vs & Hanswer & _ & _ & _ & Hw')]]).
  - intros [= <-]. split; constructor.
  - intros [= <-]. split; constructor.
  - subst answer. unfold settle, then_catch. rewrite labs_then_nonempty.
    destruct (forEach_elements _ _ _ _) as [[[ds' vs']|e] w1] eqn:Hloop.
    + apply forEach_elements_pushes in Hloop as [Hds Hvs]; [|constructor|constructor].
      rewrite renderChart_returns. unfold renderChart. run.
      destruct (bool_decide _ || bool_decide _); intros [= <-]; simpl.
      * split; constructor.
      * split; [repeat constructor; exact Hvs | exact Hds].
    + intros [= <-]. split; constructor.
Qed.

Lemma callback_uniform (obs : JsVal) (arrays : list string * list JsVal) :
  ∃ r rows, ∀ w,
    forEach_callback NumberToString obs arrays w = (r, append_rows rows w).
Proof.
  destruct arrays as [ds vs]. unfold forEach_callback. run.
  by_outcome;
    try (eexists (Throw _), []; intros w; rewrite append_rows_nil; reflexivity).
  eexists (Ok _), [_]. intros w. reflexivity.
Qed.

Lemma forEach_elements_uniform (l : list JsVal) : ∀ arrays,
  ∃ r rows, ∀ w,
    forEach_elements NumberToString l arrays w = (r, append_rows rows w).
Proof.
  induction l as [|obs l IH]; intros arrays.
  - exists (Ok arrays), []. intros w. rewrite append_rows_nil. reflexivity.
  - destruct (callback_uniform obs arrays) as ([arrays'|e] & rows & Hcb).
    + destruct (IH arrays') as (r & rows' & Hrest). exists r, (rows ++ rows').
      intros w. rewrite forEach_elements_cons, Hcb, Hrest, append_rows_app. reflexivity.
    + exists (Throw e), rows. intros w. rewrite forEach_elements_cons, Hcb. reflexivity.
Qed.

Lemma labs_catch_rendering (e : Failure) (rows : list Element) (t : TableBody) :
  ∃ note tb chart logs calls, ∀ w,
    (labs_catch e (append_rows rows (set_lab_table_body t w))).2
    = lab_rendering note tb chart logs calls w.
Proof.
  exists (" • Error loading cholesterol labs: " +:+ message_or_description e),
    (table_markup "<tr><td colspan='4'>Error loading labs.</td></tr>"), no_data_chart,
    [("Error loading cholesterol labs:", e)], [RenderChart [] []].
  intros w. reflexivity.
Qed.

Lemma no_results_rendering :
  ∃ note tb chart logs calls, ∀ w,
    (no_results w).2 = lab_rendering note tb chart logs calls w.
Proof.
  exists " • No cholesterol results found for this patient.",
    (table_markup "<tr><td colspan='4'>No cholesterol results.</td></tr>"), no_data_chart,
    [], [RenderChart [] []].
  intros w. unfold lab_rendering. rewrite app_nil_r. reflexivity.
Qed.

Lemma settle_labs_uniform (answer : Settled JsVal) :
  ∃ note tb chart logs calls, ∀ w,
    (settle NumberToString LabHandlers answer w).2
    = lab_rendering note tb chart logs calls w.
Proof.
  assert (Hthrow : ∀ e, ∃ note tb chart logs calls, ∀ w,
            (labs_catch e (set_lab_table_body {| markup := ""; appended := [] |} w)).2
            = lab_rendering note tb chart logs calls w).
  { intros e.
    destruct (labs_catch_rendering e [] {| markup := ""; appended := [] |})
      as (note & tb & chart & logs & calls & Hcatch).
    exists note, tb, chart, logs, calls. intros w.
    rewrite <- Hcatch, append_rows_nil. reflexivity. }
  unfold settle, then_catch. destruct answer as [v|e].
  - destruct v as [| |[|]|q|[|c s]|[|obs l]|m];
      try exact no_results_rendering; try apply Hthrow.
    + unfold labs_then. simpl. destruct (Qeq_bool q 0); simpl;
        [exact no_results_rendering | apply Hthrow].
    + destruct (forEach_elements_uniform (obs :: l) ([], [])) as ([[ds vs]|e] & rows & Hloop).
      * exists "", {| markup := ""; appended := rows |},
          (if bool_decide (length ds = 0) || bool_decide (length vs = 0)
           then no_data_chart else line_chart ds vs), [], [RenderChart ds vs].
        intros w.
        rewrite labs_then_nonempty, Hloop, renderChart_returns. cbn [snd].
        unfold renderChart. run. unfold lab_rendering.
        rewrite append_empty_r, app_nil_r.
        destruct (bool_decide _ || bool_decide _); reflexivity.
      * destruct (labs_catch_rendering e rows {| markup := ""; appended := [] |})
          as (note & tb & chart & logs & calls & Hcatch).
        exists note, tb, chart, logs, calls. intros w.
        rewrite labs_then_nonempty, Hloop. apply Hcatch.
    + unfold labs_then. simpl. run.
      destruct (strict_equals_number _ 0);
        [exact no_results_rendering | apply Hthrow].
  - destruct (labs_catch_rendering e [] {| markup := ""; appended := [] |})
      as (note & tb & chart & logs & calls & Hcatch).
    exists note, tb, chart, logs, calls. intros w. rewrite <- Hcatch. reflexivity.
Qed.

Lemma settle_patient_uniform (answer : Settled JsVal) :
  ∃ info logs, ∀ w,
    (settle NumberToString PatientHandlers answer w).2 = patient_rendering info logs w.
Proof.
  assert (Hcatch : ∀ e, ∃ info logs, ∀ w,
            (patient_catch e w).2 = patient_rendering info logs w).
  { intros e. exists "<p class='error'>Could not load patient details.</p>",
      [("Error loading patient:", e)]. intros w. reflexivity. }
  unfold settle, then_catch. destruct answer as [v|e]; [|apply Hcatch].
  assert (Hcases : (∃ e, ∀ w, patient_then NumberToString v w = (Throw e, w))
                   ∨ ∃ info, ∀ w, patient_then NumberToString v w
                                  = (Ok tt, set_patient_info info w)).
  { unfold patient_then. run.
    destruct (patient_name NumberToString v); [|left; eauto].
    destruct (get v "gender"); [|left; eauto].
    destruct (get v "birthDate"); [|left; eauto].
    destruct (get v "id"); [|left; eauto].
    destruct (capitalize _); [|left; eauto].
    destruct (toString (Js.or a1 _)); [|left; eauto].
    destruct (toString (Js.or a2 _)); [|left; eauto].
    right. eauto. }
  destruct Hcases as [[e He] | [info Hinfo]].
  - destruct (Hcatch e) as (info & logs & Hc). exists info, logs. intros w.
    rewrite He. apply Hc.
  - exists info, []. intros w. rewrite Hinfo. unfold patient_rendering.
    rewrite app_nil_r. reflexivity.
Qed.

(** X18: the two answers of the server may arrive in either order: the
    page shows the same, in every region, whichever handlers run
    first. *)
Theorem answers_in_either_order (patient_answer lab_answer : Settled JsVal) (w : World) :
  same_page
    (settle NumberToString LabHandlers lab_answer
       (settle NumberToString PatientHandlers patient_answer w).2).2
    (settle NumberToString PatientHandlers patient_answer
       (settle NumberToString LabHandlers lab_answer w).2).2.
Proof.
  destruct (settle_labs_uniform lab_answer) as (note & tb & chart & logs & calls & Hlab).
  destruct (settle_patient_uniform patient_answer) as (info & plogs & Hpatient).
  rewrite !Hlab, !Hpatient. repeat split.
Qed.

End Script_coverage.

(** ** The statements at the sample resources *)

Lemma jane_first_name : first_name jane (Some (["Jane"; "Q"], "Doe")).
Proof.
  apply (name_listed jane {[ "given" := JArr [JStr "Jane"; JStr "Q"];
                             "family" := JStr "Doe" ]} []).
  - vm_compute. reflexivity.
  - left. vm_compute. reflexivity.
  - left. vm_compute. reflexivity.
Defined.

Lemma patient_name_rendered_witness :
  first_name jane (Some (["Jane"; "Q"], "Doe"))
  ∧ patient_name whole_number (JObj jane) = Ok "Jane Q Doe"
  ∧ first_name nameless None
  ∧ patient_name whole_number (JObj nameless) = Ok "(no name)".
Proof.
  split; [exact jane_first_name|]. split.
  - destruct (patient_name_rendered whole_number jane _ jane_first_name) as [H _].
    rewrite H. vm_compute. reflexivity.
  - assert (Hnone : first_name nameless None).
    { apply no_name_property. vm_compute. reflexivity. }
    split; [exact Hnone|].
    destruct (patient_name_rendered whole_number nameless _ Hnone) as [H _].
    rewrite H. reflexivity.
Defined.

Lemma date_extraction_witness :
  getObservationDate (JObj effective_2020) = Ok "2020-05-01"
  ∧ getObservationDate (JObj issued_2019) = Ok "2019-01-15"
  ∧ getObservationDate (JObj undated) = Ok "".
Proof.
  split; [|split].
  - rewrite (date_extraction effective_2020) by (vm_compute; reflexivity).
    vm_compute. reflexivity.
  - rewrite (date_extraction issued_2019) by (vm_compute; reflexivity).
    vm_compute. reflexivity.
  - rewrite (date_extraction undated) by (vm_compute; reflexivity).
    vm_compute. reflexivity.
Defined.

Lemma getObservationDate_total_witness :
  getObservationDate (JObj year_only) = Ok "2020"
  ∧ getObservationDate (JObj year_month) = Ok "2020-05".
Proof.
  split.
  - destruct (getObservationDate_total year_only) as (date & -> & Hdate);
      [vm_compute; reflexivity | vm_compute; reflexivity |].
    change (chosen_timestamp year_only) with (Some "2020") in Hdate.
    destruct Hdate as (_ & _ & _ & ->); [reflexivity | simpl; lia].
  - destruct (getObservationDate_total year_month) as (date & -> & Hdate);
      [vm_compute; reflexivity | vm_compute; reflexivity |].
    change (chosen_timestamp year_month) with (Some "2020-05") in Hdate.
    destruct Hdate as (_ & _ & _ & ->); [reflexivity | simpl; lia].
Defined.

Lemma sample_observations_resources :
  Forall (observation_resource whole_number) sample_observations.
Proof. repeat constructor. Defined.

Lemma rows_equal_observations_witness :
  sample_observations ≠ []
  ∧ table_rows (labs_then whole_number (JArr sample_observations) blank_page).2 = 4
  ∧ chart_points (labs_then whole_number (JArr sample_observations) blank_page).2
    ≤ table_rows (labs_then whole_number (JArr sample_observations) blank_page).2.
Proof.
  assert (Hne : sample_observations ≠ []) by discriminate.
  split; [exact Hne|].
  destruct (rows_equal_observations whole_number sample_observations blank_page Hne)
    as [Hrows _].
  apply (Hrows (labs_then whole_number (JArr sample_observations) blank_page).2).
  vm_compute. reflexivity.
Defined.

Lemma chart_points_are_charted_witness :
  Forall (observation_resource whole_number) sample_observations
  ∧ ∃ w', labs_then whole_number (JArr sample_observations) blank_page = (Ok tt, w')
      ∧ chart_points w' = 2
      ∧ chart_data w' = [JNum 195; JNum 180].
Proof.
  split; [exact sample_observations_resources|].
  destruct (chart_points_are_charted whole_number sample_observations blank_page
              sample_observations_resources) as (w' & Hw' & Hpoints & Hdata).
  exists w'. split; [exact Hw'|]. split.
  - rewrite Hpoints. vm_compute. reflexivity.
  - rewrite Hdata. vm_compute. reflexivity.
Defined.

Lemma coded_value_row_witness :
  observation_resource whole_number (JObj coded)
  ∧ not_nullish (quantity_value (JObj coded)) = true
  ∧ numeric_value (JObj coded) = false
  ∧ ∃ date_cell unit_cell status_cell,
      forEach_callback whole_number (JObj coded) ([], []) blank_page
      = (Ok ([], []),
         append_rows
           [ {| tagName := "tr";
                innerHTML := row_of_cells [date_cell; "HIGH"; unit_cell; status_cell] |} ]
           blank_page).
Proof.
  assert (H1 : observation_resource whole_number (JObj coded)) by reflexivity.
  assert (H2 : not_nullish (quantity_value (JObj coded)) = true) by reflexivity.
  assert (H3 : numeric_value (JObj coded) = false) by reflexivity.
  split; [exact H1|]. split; [exact H2|]. split; [exact H3|].
  destruct (coded_value_row whole_number (JObj coded) [] [] blank_page H1 H2 H3)
    as (d & v & u & st & _ & Hcode & Hcb & _).
  rewrite (Hcode "HIGH") in Hcb by reflexivity.
  exists d, u, st. exact Hcb.
Defined.

Lemma empty_result_set_witness :
  empty_or_absent (JArr [])
  ∧ table_rows (labs_then whole_number (JArr []) blank_page).2 = 1
  ∧ chart_points (labs_then whole_number (JArr []) blank_page).2 = 0.
Proof.
  assert (H : empty_or_absent (JArr [])) by (left; reflexivity).
  split; [exact H|].
  destruct (empty_result_set whole_number (JArr []) blank_page H)
    as (w' & c & -> & _ & _ & Hrows & _ & _ & _ & Hpoints).
  split; [exact Hrows | exact Hpoints].
Defined.

Lemma dev_mode_fallback_witness :
  JsString.includes (description missing_state) "No 'state' parameter" = true
  ∧ trace (entry_point (Rejected missing_state) blank_page).2
    = [LoadPatient (FHIR_client "https://r3.smarthealthit.org") (Some "smart-1288992");
       LoadCholesterolLabs (FHIR_client "https://r3.smarthealthit.org")
         (Some "smart-1288992")].
Proof.
  assert (H : JsString.includes (description missing_state) "No 'state' parameter"
              = true) by reflexivity.
  split; [exact H|].
  destruct (dev_mode_fallback missing_state blank_page H) as (_ & _ & Htrace & _).
  exact Htrace.
Defined.

Lemma other_launch_failure_witness :
  JsString.includes (description access_denied) "No 'state' parameter" = false
  ∧ status (entry_point (Rejected access_denied) blank_page).2
    = "Launch error: access_denied"
  ∧ requests (entry_point (Rejected access_denied) blank_page).2 = [].
Proof.
  assert (H : JsString.includes (description access_denied) "No 'state' parameter"
              = false) by reflexivity.
  split; [exact H|].
  destruct (other_launch_failure access_denied blank_page H)
    as (_ & Hstatus & _ & Hrequests & _).
  split; [exact Hstatus | exact Hrequests].
Defined.

(** ** The script at work *)

Example includes_phrase :
  JsString.includes (description missing_state) "No 'state' parameter" = true
  ∧ JsString.includes "Error: state" "No 'state' parameter" = false.
Proof. split; reflexivity. Qed.

Example trim_white_space :
  JsString.trim (JsString.bytes [32; 9] +:+ "Jane  Doe " +:+ JsString.bytes [194; 160; 10])
  = "Jane  Doe".
Proof. vm_compute. reflexivity. Qed.

Example encode_loinc :
  JsString.encodeURIComponent "http://loinc.org|2093-3" = "http%3A%2F%2Floinc.org%7C2093-3".
Proof. vm_compute. reflexivity. Qed.

Example bullet_is_three_bytes :
  String.length " • No cholesterol results found for this patient." = 51.
Proof. reflexivity. Qed.

(** A timestamp that is no string has no [substring] method: the call
    throws, and the loader's [catch] takes over. *)
Example number_timestamp_throws :
  getObservationDate (JObj {[ "effectiveDateTime" := JNum 2020 ]})
  = Throw (TypeError "substring is not a function").
Proof. vm_compute. reflexivity. Qed.

Example dev_mode_session_page :
  status dev_mode_session
  = "No SMART launch detected – using sandbox dev mode with a test patient."
  ∧ patient_info dev_mode_session
    = patient_template "Jane Q Doe" "Female" "unknown" "smart-1288992"
  ∧ innerHTML <$> appended (lab_table_body dev_mode_session)
    = [ row_of_cells ["2019-01-15"; "195"; "mg/dL"; ""];
        row_of_cells ["2020-05-01"; "180"; "mg/dL"; "final"];
        row_of_cells ["2021-03-04"; "HIGH"; ""; ""];
        row_of_cells [""; "200"; ""; "final"] ]
  ∧ lab_chart dev_mode_session
    = Some (line_chart ["2019-01-15"; "2020-05-01"] [JNum 195; JNum 180]).
Proof. vm_compute. repeat split. Qed.

(** ** The further properties at the sample resources *)

Lemma formatHumanName_never_blank_witness :
  formatHumanName whole_number padded_name = Ok "Ann  Lee"
  ∧ ¬ starts_with_space "Ann  Lee" ∧ ¬ ends_with_space "Ann  Lee".
Proof.
  assert (H : formatHumanName whole_number padded_name = Ok "Ann  Lee")
    by (vm_compute; reflexivity).
  split; [exact H|].
  destruct (formatHumanName_never_blank whole_number padded_name _ H) as (_ & Hs & He).
  split; [exact Hs | exact He].
Defined.

Lemma request_urls_keep_their_shape_witness :
  hostile_id ≠ ""
  ∧ ∃ path query,
      requests (loadPatient (FHIR_client DEV_SERVER_URL) (Some hostile_id) blank_page).2
      = [ {| on_client := FHIR_client DEV_SERVER_URL; fetch := ClientRequest path None;
             handlers := PatientHandlers |} ]
      ∧ requests (loadCholesterolLabs (FHIR_client DEV_SERVER_URL) (Some hostile_id)
                    blank_page).2
        = [ {| on_client := FHIR_client DEV_SERVER_URL;
               fetch := ClientRequest query (Some {| pageLimit := 3; flat := true |});
               handlers := LabHandlers |} ]
      ∧ occurrences "/" path = 1
      ∧ occurrences "&" query = 2.
Proof.
  assert (H : hostile_id ≠ "") by discriminate.
  split; [exact H|].
  destruct (request_urls_keep_their_shape (FHIR_client DEV_SERVER_URL) hostile_id
              blank_page H)
    as (path & query & Hp & Hq & (Hslash & _) & (_ & Hamp & _) & _).
  exists path, query. split; [exact Hp|]. split; [exact Hq|].
  split; [exact Hslash | exact Hamp].
Defined.

Lemma lab_failure_rendering_witness :
  (∃ e, lab_failure whole_number (Resolved broken_observations) blank_page e)
  ∧ table_rows (settle whole_number LabHandlers (Resolved broken_observations)
                  blank_page).2 = 1
  ∧ lab_chart (settle whole_number LabHandlers (Resolved broken_observations)
                 blank_page).2 = Some no_data_chart.
Proof.
  assert (H : lab_failure whole_number (Resolved broken_observations) blank_page
                (TypeError "Cannot read properties of null (reading 'effectiveDateTime')")).
  { right. eexists _, _. split; [reflexivity|]. vm_compute. reflexivity. }
  split; [eexists; exact H|].
  destruct (lab_failure_rendering whole_number _ blank_page _ H)
    as (_ & _ & Hrows & Hchart & _).
  split; [exact Hrows | exact Hchart].
Defined.

Lemma patient_failure_rendering_witness :
  (∃ e, patient_failure whole_number (Resolved JNull) blank_page e)
  ∧ patient_info (settle whole_number PatientHandlers (Resolved JNull) blank_page).2
    = "<p class='error'>Could not load patient details.</p>".
Proof.
  assert (H : patient_failure whole_number (Resolved JNull) blank_page
                (TypeError "Cannot read properties of null (reading 'name')")).
  { right. eexists _, _. split; [reflexivity|]. vm_compute. reflexivity. }
  split; [eexists; exact H|].
  destruct (patient_failure_rendering whole_number _ blank_page _ H) as (Hinfo & _).
  exact Hinfo.
Defined.

Lemma jane_is_patient : is_Patient jane.
Proof. repeat split. vm_compute. lia. Defined.

Lemma patient_panel_witness :
  first_name jane (Some (["Jane"; "Q"], "Doe"))
  ∧ is_Patient jane
  ∧ patient_info (settle whole_number PatientHandlers (Resolved (JObj jane)) blank_page).2
    = patient_template "Jane Q Doe" "Female" "unknown" "smart-1288992".
Proof.
  split; [exact jane_first_name|]. split; [exact jane_is_patient|].
  rewrite (patient_panel whole_number jane _ blank_page jane_first_name jane_is_patient).
  vm_compute. reflexivity.
Defined.

Lemma table_rows_follow_observations_witness :
  sample_observations ≠ []
  ∧ Forall (observation_resource whole_number) sample_observations
  ∧ ∃ w', settle whole_number LabHandlers (Resolved (JArr sample_observations)) blank_page
          = (Ok tt, w')
      ∧ innerHTML <$> appended (lab_table_body w')
        = [ row_of_cells ["2019-01-15"; "195"; "mg/dL"; ""];
            row_of_cells ["2020-05-01"; "180"; "mg/dL"; "final"];
            row_of_cells ["2021-03-04"; "HIGH"; ""; ""];
            row_of_cells [""; "200"; ""; "final"] ].
Proof.
  assert (Hne : sample_observations ≠ []) by discriminate.
  split; [exact Hne|]. split; [exact sample_observations_resources|].
  destruct (table_rows_follow_observations whole_number sample_observations blank_page
              Hne sample_observations_resources) as (w' & Hw' & Htable).
  exists w'. split; [exact Hw'|]. rewrite Htable. vm_compute. reflexivity.
Defined.

Lemma chart_pairs_dates_with_values_witness :
  Forall (observation_resource whole_number) sample_observations
  ∧ ∃ w', settle whole_number LabHandlers (Resolved (JArr sample_observations)) blank_page
          = (Ok tt, w')
      ∧ lab_chart w'
        = Some (line_chart ["2019-01-15"; "2020-05-01"] [JNum 195; JNum 180]).
Proof.
  split; [exact sample_observations_resources|].
  destruct (chart_pairs_dates_with_values whole_number sample_observations blank_page
              sample_observations_resources) as (w' & Hw' & Hchart & _).
  exists w'. split; [exact Hw'|]. rewrite Hchart. vm_compute. reflexivity.
Defined.

Lemma capitalize_first_letter_only_witness :
  ascii_initial "female" ∧ capitalize (JStr "female") = Ok "Female"
  ∧ capitalize (JStr "Female") = Ok "Female".
Proof.
  assert (H : ascii_initial "female") by (vm_compute; lia).
  split; [exact H|].
  destruct (capitalize_first_letter_only "female" H) as (Hcap & _ & _ & Hidem & _).
  split; [exact Hcap | exact Hidem].
Defined.

Lemma earlier_dev_mode_sends_nothing_witness :
  JsString.includes (description missing_state) "No 'state' parameter" = true
  ∧ ∃ e w', Earlier.entry_point (Rejected missing_state) blank_page = (Throw e, w')
      ∧ requests w' = [].
Proof.
  assert (H : JsString.includes (description missing_state) "No 'state' parameter"
              = true) by reflexivity.
  split; [exact H|].
  destruct (earlier_dev_mode_sends_nothing missing_state blank_page H)
    as (e & w' & Hrun & _ & Hrequests & _).
  exists e, w'. split; [exact Hrun | exact Hrequests].
Defined.

Lemma chart_holds_numbers_only_witness :
  lab_chart (settle whole_number LabHandlers (Resolved (JArr sample_observations))
               blank_page).2
  = Some (line_chart ["2019-01-15"; "2020-05-01"] [JNum 195; JNum 180])
  ∧ Forall is_number [JNum 195; JNum 180]
  ∧ Forall is_date_label ["2019-01-15"; "2020-05-01"].
Proof.
  assert (H : lab_chart (settle whole_number LabHandlers
                           (Resolved (JArr sample_observations)) blank_page).2
              = Some (line_chart ["2019-01-15"; "2020-05-01"] [JNum 195; JNum 180]))
    by (vm_compute; reflexivity).
  split; [exact H|].
  destruct (chart_holds_numbers_only whole_number _ blank_page _ H) as (Hdata & Hlabels).
  split; [|exact Hlabels].
  apply Forall_cons in Hdata as [Hseries _]. exact Hseries.
Defined.
